(** * MACI deployment scripts: a shallow embedding

    Two scripts are covered:

    - the contract deployment script ([deployMaci] and [main]), which
      deploys the signup token, the voice-credit proxy, the gatekeeper,
      MiMC, the two verifiers and MACI through an etherlime deployer and
      writes a JSON file of addresses;
    - the CLI command [deployVkRegistryContract], which rotates the
      contract-address store and records the VkRegistry address.

    Effects (deployment transactions, console output, files) are threaded
    through an explicit world; a thrown JavaScript exception is the [Throw]
    result. *)

From Stdlib Require Import ZArith String List Lia.
From Stdlib Require Import DecimalString DecimalZ.
From stdpp Require Import base option list strings gmap.

Local Open Scope string_scope.
Local Open Scope list_scope.
Local Open Scope Z_scope.

(** ** Results and the effect monad *)

(** The contract artifacts the deployment script loads from
    [@maci-contracts/compiled].  Chain addresses are JavaScript strings. *)
Inductive Artifact :=
  | MiMC
  | Hasher
  | SignUpToken
  | SignUpTokenGatekeeper
  | FreeForAllSignUpGatekeeper
  | InitialVoiceCreditProxy
  | ConstantInitialVoiceCreditProxy
  | BatchUpdateStateTreeVerifier
  | QuadVoteTallyVerifier
  | MACI.

#[global] Instance Artifact_eq_dec : EqDecision Artifact.
Proof. solve_decision. Defined.

(** Exceptions the scripts can raise. [DeployFailed a] is whatever the
    deployer throws when the deployment of [a] does not go through;
    [FsError code] is a file-system call refused by the operating system
    ([EISDIR], [EACCES], [EPERM], [EXDEV], a missing directory, ...). *)
Inductive Error :=
  | DeployFailed (a : Artifact)
  | VkRegistryDeployFailed
  | VkRegistryWaitFailed
  | TypeError
  | RangeError
  | ENOENT (path : string)
  | FsError (code : string).

Inductive Result (A : Type) :=
  | OK (a : A)
  | Throw (e : Error).
Arguments OK {A} a.
Arguments Throw {A} e.

(** JavaScript values handed to a contract constructor. *)
#[warnings="-register-all"]
Inductive Value :=
  | VNum (n : Z)
  | VStr (s : string)
  | VObj (fields : list (string * Value)).

(** ** Arbitrary-precision integers

    [bigInt] is re-exported by [maci-crypto], which is not among the
    sources.  Modelled from the spec: it is an exact arbitrary-precision
    integer, so its values are those of [Z], [pow] is exact exponentiation,
    [-] is exact subtraction and [toString] is the decimal numeral.  What
    [pow] does with a negative exponent is not fixed by the sources and is a
    parameter ([pow_negative]). *)
Module BigInt.

Definition t := Z.

(** [bigInt(n)] for an integer-valued number. *)
Definition of_number (n : Z) : t := n.

Definition pow (pow_negative : Z → Z → Result t) (b e : t) : Result t :=
  if e <? 0 then pow_negative b e else OK (b ^ e).

Definition sub (a b : t) : t := a - b.

(** Decimal numeral, with a leading minus for negative values. *)
Definition toString (z : t) : string :=
  NilZero.string_of_int (Z.to_int z).

(** Reading a decimal numeral back. *)
Definition ofString (s : string) : option t :=
  Z.of_int <$> NilZero.int_of_string s.

End BigInt.

(** ** The world the scripts act on *)

(** A deployed contract object; only its address is read. *)
Record Contract := { contractAddress : string }.

(** One call [deployer.deploy(artifact, libraries, ...args)]. *)
Record DeployRequest := {
  artifact : Artifact;
  libraries : list (string * string);
  args : list Value;
}.

(** What happened on the chain side, in order: deployer calls with their
    outcome ([None] when the deployer threw), and for the CLI the
    [deployVkRegistry] call and the wait for its transaction. *)
Inductive Event :=
  | Deployment (req : DeployRequest) (res : option string)
  | VkRegistryDeployment (res : option string)
  | VkRegistryWait (addr : string) (confirmed : bool).

(** A deployer answers a request knowing what happened before it. *)
Abbreviation Deployer := (list Event → DeployRequest → option string)
  (only parsing).

(** Arguments of one [console.log] call. *)
Inductive Printed :=
  | PStr (s : string)
  | PObj (m : gmap string string).

(** Files are regular files holding the JSON text of a flat object of
    strings; the model keeps the object the text denotes.  Directories and
    permissions are not part of the world: whether the operating system
    accepts a write or a rename is a parameter ([writeError],
    [renameError]). *)
Record World := {
  chain : list Event;
  console : list (list Printed);
  files : gmap string (gmap string string);
}.

Definition M (A : Type) : Type := World → Result A * World.

#[global] Instance M_ret : MRet M := λ A a w, (OK a, w).

#[global] Instance M_bind : MBind M := λ A B f m w,
  match m w with
  | (OK a, w') => f a w'
  | (Throw e, w') => (Throw e, w')
  end.

Definition throw {A} (e : Error) : M A := λ w, (Throw e, w).

Definition liftResult {A} (r : Result A) : M A := λ w, (r, w).

(** [deployer.deploy(artifact, libraries, ...args)]: the request is
    recorded with its outcome; a failing deployer throws. *)
Definition deploy (deployer : Deployer) (a : Artifact)
    (libs : list (string * string)) (xs : list Value) : M Contract := λ w,
  let req := {| artifact := a; libraries := libs; args := xs |} in
  let res := deployer (chain w) req in
  let w' := {| chain := chain w ++ [Deployment req res];
               console := console w; files := files w |} in
  match res with
  | Some addr => (OK {| contractAddress := addr |}, w')
  | None => (Throw (DeployFailed a), w')
  end.

Definition console_log (items : list Printed) : M unit := λ w,
  (OK tt, {| chain := chain w; console := console w ++ [items];
             files := files w |}).

(** Replaces the content of the file at [path]. *)
Definition putFile (path : string) (obj : gmap string string)
    : M unit := λ w,
  (OK tt, {| chain := chain w; console := console w;
             files := <[path := obj]> (files w) |}).

(** [fs.writeFileSync(path, JSON.stringify(obj))].  The operating system
    may refuse the write (the directory of [path] does not exist, the file
    cannot be written); [refusal] is its verdict, an error code, on the
    files as they are.  A refused write throws and changes no file. *)
Definition writeFileSync
    (refusal : gmap string (gmap string string) → string → option string)
    (path : string) (obj : gmap string string) : M unit := λ w,
  match refusal (files w) path with
  | Some code => (Throw (FsError code), w)
  | None => putFile path obj w
  end.

(** JavaScript truthiness of an optional string argument: [null] and the
    empty string are falsy. *)
Definition truthy (o : option string) : bool :=
  match o with
  | Some s => negb (String.eqb s "")
  | None => false
  end.

(** ** Configuration ([maci-config]) *)

Module Config.

Record merkleTrees := {
  stateTreeDepth : Z;
  messageTreeDepth : Z;
  voteOptionTreeDepth : Z;
}.

Record maci := {
  coordinatorPrivKey : string;
  trees : merkleTrees;
  quadVoteTallyBatchSize : Z;
  messageBatchSize : Z;
  voteOptionsMaxLeafIndex : Z;
  signUpDurationInSeconds : Z;
  votingDurationInSeconds : Z;
  initialVoiceCreditBalance : Z;
}.

Record t := {
  env : string;
  maci_ : maci;
}.

End Config.

Record Account := { address : string; privateKey : string }.

(** [PubKey] of [maci-domainobjs]: a wrapper around the raw key pair. *)
Record PubKey := { rawPubKey : Z * Z }.

(** Command-line arguments as [argparse] returns them. *)
Record Args := {
  output : string;
  signUpToken : option string;
  initialVoiceCreditProxy : option string;
}.

(** What [deployMaci] returns. *)
Record MaciContracts := {
  batchUstVerifierContract : Contract;
  quadVoteTallyVerifierContract : Contract;
  mimcContract : Contract;
  maciContract : Contract;
}.

(** ** External collaborators

    Functions the scripts import from other packages ([maci-crypto],
    [./accounts], [etherlime-lib], Node's [path]); they are parameters of
    the development. *)
Class Platform := {
  (** [genTestAccounts(n)] and [genAccounts()] of [./accounts]. *)
  genTestAccounts : Z → list Account;
  genAccounts : list Account;
  (** The Ganache deployer built from a private key. *)
  genDeployer : string → Deployer;
  (** [genPubKey] of [maci-crypto], which is not among the sources.
      Modelled from the spec: the derivation of a public key from a private
      key is a pure function. *)
  genPubKey : Z → Z * Z;
  (** [bigInt] applied to the configured private-key text. *)
  bigInt_of_string : string → Z;
  (** [pow] of [bigInt] at a negative exponent. *)
  pow_negative : Z → Z → Result Z;
  (** [path.join] and the script's [__dirname]. *)
  path_join : list string → string;
  dirname : string;
  (** The operating system's verdict on writing a file: [None] when the
      write goes through, an error code when it is refused. *)
  writeError : gmap string (gmap string string) → string → option string;
}.

(** ** The contract deployment script *)

Section Script.
Context `{Platform}.
Variable config : Config.t.

(** Module-level constant of the script. *)
Definition coordinatorPublicKey : Z * Z :=
  genPubKey (bigInt_of_string (Config.coordinatorPrivKey (Config.maci_ config))).

Definition log (msg : string) (quiet : bool) : M unit :=
  if negb quiet then console_log [PStr msg] else mret tt.

Definition deployConstantInitialVoiceCreditProxy
    (deployer : Deployer)
    (amount : Z) (quiet : option bool) : M Contract :=
  let quiet := default false quiet in
  log "Deploying InitialVoiceCreditProxy" quiet;;
  deploy deployer ConstantInitialVoiceCreditProxy [] [VNum amount].

Definition deploySignupToken
    (deployer : Deployer) : M Contract :=
  console_log [PStr "Deploying SignUpToken"];;
  deploy deployer SignUpToken [] [].

Definition deploySignupTokenGatekeeper
    (deployer : Deployer)
    (signUpTokenAddress : string) (quiet : option bool) : M Contract :=
  let quiet := default false quiet in
  log "Deploying SignUpTokenGatekeeper" quiet;;
  signUpTokenGatekeeperContract ←
    deploy deployer SignUpTokenGatekeeper [] [VStr signUpTokenAddress];
  mret signUpTokenGatekeeperContract.

Definition deployFreeForAllSignUpGatekeeper
    (deployer : Deployer)
    (quiet : option bool) : M Contract :=
  let quiet := default false quiet in
  log "Deploying FreeForAllSignUpGatekeeper" quiet;;
  deploy deployer FreeForAllSignUpGatekeeper [] [].

(** The inline key resolution of [deployMaci]: a supplied key is kept,
    otherwise the key is derived from the configured private key. *)
Definition resolveCoordinatorKey (coordinatorPubKey : option PubKey)
    : PubKey :=
  match coordinatorPubKey with
  | Some k => k
  | None =>
      let p := genPubKey
        (bigInt_of_string (Config.coordinatorPrivKey (Config.maci_ config))) in
      {| rawPubKey := p |}
  end.

Definition deployMaci
    (deployer : Deployer)
    (signUpGatekeeperAddress : string)
    (initialVoiceCreditProxy : string)
    (stateTreeDepth messageTreeDepth voteOptionTreeDepth
     quadVoteTallyBatchSize messageBatchSize voteOptionsMaxLeafIndex
     signUpDurationInSeconds votingDurationInSeconds : option Z)
    (coordinatorPubKey : option PubKey)
    (quiet : option bool) : M MaciContracts :=
  let c := Config.maci_ config in
  let stateTreeDepth :=
    default (Config.stateTreeDepth (Config.trees c)) stateTreeDepth in
  let messageTreeDepth :=
    default (Config.messageTreeDepth (Config.trees c)) messageTreeDepth in
  let voteOptionTreeDepth :=
    default (Config.voteOptionTreeDepth (Config.trees c)) voteOptionTreeDepth in
  let quadVoteTallyBatchSize :=
    default (Config.quadVoteTallyBatchSize c) quadVoteTallyBatchSize in
  let messageBatchSize :=
    default (Config.messageBatchSize c) messageBatchSize in
  let voteOptionsMaxLeafIndex :=
    default (Config.voteOptionsMaxLeafIndex c) voteOptionsMaxLeafIndex in
  let signUpDurationInSeconds :=
    default (Config.signUpDurationInSeconds c) signUpDurationInSeconds in
  let votingDurationInSeconds :=
    default (Config.votingDurationInSeconds c) votingDurationInSeconds in
  let quiet := default false quiet in
  log "Deploying MiMC" quiet;;
  let coordinatorPubKey := resolveCoordinatorKey coordinatorPubKey in
  mimcContract ← deploy deployer MiMC [] [];
  log "Deploying BatchUpdateStateTreeVerifier" quiet;;
  batchUstVerifierContract ←
    deploy deployer BatchUpdateStateTreeVerifier [] [];
  log "Deploying QuadVoteTallyVerifier" quiet;;
  quadVoteTallyVerifierContract ←
    deploy deployer QuadVoteTallyVerifier [] [];
  log "Deploying MACI" quiet;;
  usersPow ← liftResult
    (BigInt.pow pow_negative (BigInt.of_number 2)
       (BigInt.of_number stateTreeDepth));
  let maxUsers :=
    BigInt.toString (BigInt.sub usersPow (BigInt.of_number 1)) in
  messagesPow ← liftResult
    (BigInt.pow pow_negative (BigInt.of_number 2)
       (BigInt.of_number messageTreeDepth));
  let maxMessages :=
    BigInt.toString (BigInt.sub messagesPow (BigInt.of_number 1)) in
  maciContract ← deploy deployer MACI
    [("MiMC", contractAddress mimcContract)]
    [ VObj [ ("stateTreeDepth", VNum stateTreeDepth);
             ("messageTreeDepth", VNum messageTreeDepth);
             ("voteOptionTreeDepth", VNum voteOptionTreeDepth) ];
      VObj [ ("tallyBatchSize", VNum quadVoteTallyBatchSize);
             ("messageBatchSize", VNum messageBatchSize) ];
      VObj [ ("maxUsers", VStr maxUsers);
             ("maxMessages", VStr maxMessages);
             ("maxVoteOptions", VNum voteOptionsMaxLeafIndex) ];
      VStr signUpGatekeeperAddress;
      VStr (contractAddress batchUstVerifierContract);
      VStr (contractAddress quadVoteTallyVerifierContract);
      VNum signUpDurationInSeconds;
      VNum votingDurationInSeconds;
      VStr initialVoiceCreditProxy;
      VObj [ ("x", VStr (BigInt.toString (rawPubKey coordinatorPubKey).1));
             ("y", VStr (BigInt.toString (rawPubKey coordinatorPubKey).2)) ] ];
  mret {| batchUstVerifierContract := batchUstVerifierContract;
          quadVoteTallyVerifierContract := quadVoteTallyVerifierContract;
          mimcContract := mimcContract;
          maciContract := maciContract |}.

(** The script's entry point.  It is an async function called without a
    handler for its rejection: an exception leaves through [Throw] and
    nothing else reaches the caller. *)
Definition main (args : Args) : M unit :=
  let accounts :=
    if String.eqb (Config.env config) "local-dev"
       || String.eqb (Config.env config) "test"
    then genTestAccounts 1
    else genAccounts in
  admin ← match accounts !! 0%nat with
          | Some a => mret a
          | None => throw TypeError
          end;
  console_log [PStr "Using account"; PStr (address admin)];;
  let outputAddressFile := output args in
  let signUpToken := signUpToken args in
  let initialVoiceCreditProxy := initialVoiceCreditProxy args in
  let deployer := genDeployer (privateKey admin) in
  signUpTokenAddress ←
    (if truthy signUpToken then mret (default "" signUpToken)
     else
       signUpTokenContract ← deploySignupToken deployer;
       mret (contractAddress signUpTokenContract));
  initialVoiceCreditBalanceAddress ←
    (if truthy initialVoiceCreditProxy
     then mret (default "" initialVoiceCreditProxy)
     else
       initialVoiceCreditProxyContract ←
         deployConstantInitialVoiceCreditProxy deployer
           (Config.initialVoiceCreditBalance (Config.maci_ config)) None;
       mret (contractAddress initialVoiceCreditProxyContract));
  signUpTokenGatekeeperContract ←
    deploySignupTokenGatekeeper deployer signUpTokenAddress None;
  contracts ← deployMaci deployer
    (contractAddress signUpTokenGatekeeperContract)
    initialVoiceCreditBalanceAddress
    None None None None None None None None None None;
  let addresses : gmap string string :=
    <["MiMC" := contractAddress (mimcContract contracts)]>
    (<["BatchUpdateStateTreeVerifier" :=
         contractAddress (batchUstVerifierContract contracts)]>
    (<["QuadraticVoteTallyVerifier" :=
         contractAddress (quadVoteTallyVerifierContract contracts)]>
    (<["MACI" := contractAddress (maciContract contracts)]> ∅))) in
  let addressJsonPath := path_join [dirname; ".."; outputAddressFile] in
  writeFileSync writeError addressJsonPath addresses;;
  console_log [PObj addresses].

End Script.

(** ** The CLI command deployVkRegistry *)

(** What the command imports: the two store paths of [../utils/constants],
    [deployVkRegistry] of [maci-contracts] with the wait on its deployment
    transaction, and the banner and theme helpers. *)
Class Cli := {
  contractAddressesStore : string;
  oldContractAddressesStore : string;
  deployVkRegistryOracle : list Event → bool → option string;
  waitOracle : list Event → string → bool;
  bannerText : string;
  success : string → string;
  (** The operating system's verdict on renaming one existing file onto
      another path: [None] when the rename goes through, an error code when
      it is refused, as when what is at the destination cannot be
      overwritten ([EISDIR], [EACCES], [EPERM]) or lies on another device
      ([EXDEV]). *)
  renameError :
    gmap string (gmap string string) → string → string → option string;
}.

Section Command.
Context `{Cli}.

(** Node's [fs.renameSync]: a missing source raises [ENOENT]; a rename
    the operating system refuses throws its error and changes no file;
    otherwise the source is moved, and a file already at the destination is
    replaced. *)
Definition renameSync (oldPath newPath : string) : M unit := λ w,
  match files w !! oldPath with
  | None => (Throw (ENOENT oldPath), w)
  | Some content =>
      match renameError (files w) oldPath newPath with
      | Some code => (Throw (FsError code), w)
      | None =>
          (OK tt, {| chain := chain w; console := console w;
                     files := <[newPath := content]>
                                (delete oldPath (files w)) |})
      end
  end.

(** Modelled from the spec: [resetContractAddresses] of [../utils/storage]
    is not among the sources; it begins a new empty manifest at the store
    path. *)
Definition resetContractAddresses : M unit :=
  putFile contractAddressesStore ∅.

(** Modelled from the spec: [storeContractAddress] of [../utils/storage]
    is not among the sources; it appends or updates one entry of the
    current manifest and flushes it at once.  A missing store file reads
    as the empty manifest. *)
Definition storeContractAddress (name addr : string) : M unit := λ w,
  let current := default ∅ (files w !! contractAddressesStore) in
  putFile contractAddressesStore (<[name := addr]> current) w.

(** Modelled from the spec: [loadManifest] reads the current persisted
    state; there is no such function among the sources. *)
Definition loadManifest : M (gmap string string) := λ w,
  match files w !! contractAddressesStore with
  | Some m => (OK m, w)
  | None => (Throw (ENOENT contractAddressesStore), w)
  end.

(** The spec's [resetStore]: the first two statements of the command. *)
Definition resetStore : M unit :=
  renameSync contractAddressesStore oldContractAddressesStore;;
  resetContractAddresses.

Definition banner : M unit := console_log [PStr bannerText].

Definition logGreen (text : string) : M unit := console_log [PStr text].

(** [deployVkRegistry(true)] of [maci-contracts]. *)
Definition deployVkRegistry (quiet : bool) : M string := λ w,
  let res := deployVkRegistryOracle (chain w) quiet in
  let w' := {| chain := chain w ++ [VkRegistryDeployment res];
               console := console w; files := files w |} in
  match res with
  | Some addr => (OK addr, w')
  | None => (Throw VkRegistryDeployFailed, w')
  end.

(** [vkRegistry.deployTransaction.wait()]. *)
Definition waitDeployTransaction (addr : string) : M unit := λ w,
  let ok := waitOracle (chain w) addr in
  let w' := {| chain := chain w ++ [VkRegistryWait addr ok];
               console := console w; files := files w |} in
  if ok then (OK tt, w') else (Throw VkRegistryWaitFailed, w').

Definition deployVkRegistryContract (quiet : bool) : M unit :=
  banner;;
  renameSync contractAddressesStore oldContractAddressesStore;;
  resetContractAddresses;;
  vkRegistry ← deployVkRegistry true;
  waitDeployTransaction vkRegistry;;
  storeContractAddress "VkRegistry" vkRegistry;;
  if negb quiet
  then logGreen (success ("VkRegistry deployed at: " +:+ vkRegistry))
  else mret tt.

End Command.

(** The depths [deployMaci] works with: the argument when given, the
    configured value otherwise. *)
Definition stateDepthOf (config : Config.t) (arg : option Z) : Z :=
  default (Config.stateTreeDepth (Config.trees (Config.maci_ config))) arg.

Definition messageDepthOf (config : Config.t) (arg : option Z) : Z :=
  default (Config.messageTreeDepth (Config.trees (Config.maci_ config))) arg.

(** The accounts [main] picks its admin from. *)
Definition accountsOf `{Platform} (config : Config.t) : list Account :=
  if String.eqb (Config.env config) "local-dev"
     || String.eqb (Config.env config) "test"
  then genTestAccounts 1
  else genAccounts.

(** Requests for the contracts without constructor arguments. *)
Definition plainRequest (a : Artifact) : DeployRequest :=
  {| artifact := a; libraries := []; args := [] |}.

(** ** Observing a run *)

(** The chain events a computation adds to the world it starts from. *)
Definition events_of {A} (run : M A) (w : World) : list Event :=
  drop (length (chain w)) (chain (run w).2).

Definition result_of {A} (run : M A) (w : World) : Result A := (run w).1.

Definition files_after {A} (run : M A) (w : World)
    : gmap string (gmap string string) := files (run w).2.

(** The gatekeeper step failed during the run. *)
Definition gatekeeper_failed (evs : list Event) : Prop :=
  ∃ req, artifact req = SignUpTokenGatekeeper ∧ Deployment req None ∈ evs.

(** ** The specification's statements about the orchestrator

    Four statements of the specification, written out over the script so
    that they can be tested against it. *)
Section Stated.
Context `{Platform}.
Variable config : Config.t.

(** Where [main] writes the addresses. *)
Definition outputPathOf (argv : Args) : string :=
  path_join [dirname; ".."; output argv].

(** A supplied token address is never redeployed and the persisted
    manifest has an entry equal to it. *)
Definition supplied_token_in_manifest (argv : Args) (w : World) : Prop :=
  ∀ t, signUpToken argv = Some t → t ≠ "" →
    (∀ req res, Deployment req res ∈ events_of (main config argv) w →
                artifact req ≠ SignUpToken) ∧
    ∃ m, files_after (main config argv) w !! outputPathOf argv = Some m ∧
         ∃ name, m !! name = Some t.

(** After a completed run every contract of the plan has an entry in the
    persisted manifest, and no entry is empty. *)
Definition manifest_covers_plan (argv : Args) (w : World) : Prop :=
  result_of (main config argv) w = OK tt →
  ∃ m, files_after (main config argv) w !! outputPathOf argv = Some m ∧
       (∀ req a, Deployment req (Some a) ∈ events_of (main config argv) w →
                 ∃ name, m !! name = Some a) ∧
       (∀ name a, m !! name = Some a → a ≠ "").

(** A zero or negative tree depth makes the run fail before anything is
    deployed or written. *)
Definition rejects_nonpositive_depths (argv : Args) (w : World) : Prop :=
  Config.stateTreeDepth (Config.trees (Config.maci_ config)) ≤ 0
  ∨ Config.messageTreeDepth (Config.trees (Config.maci_ config)) ≤ 0
  ∨ Config.voteOptionTreeDepth (Config.trees (Config.maci_ config)) ≤ 0 →
  (∃ e, result_of (main config argv) w = Throw e) ∧
  events_of (main config argv) w = [] ∧
  files_after (main config argv) w = files w.

(** When the gatekeeper step fails, MACI is not attempted and a partial
    manifest holding the token entry (and the proxy entry when deployed)
    and nothing else is surfaced. *)
Definition surfaces_partial_manifest (argv : Args) (w : World) : Prop :=
  gatekeeper_failed (events_of (main config argv) w) →
  (∀ req res, Deployment req res ∈ events_of (main config argv) w →
              artifact req ≠ MACI) ∧
  ∃ m, files_after (main config argv) w !! outputPathOf argv = Some m ∧
       ∀ name a, m !! name = Some a →
         ∃ req, Deployment req (Some a) ∈ events_of (main config argv) w ∧
                (artifact req = SignUpToken
                 ∨ artifact req = ConstantInitialVoiceCreditProxy).

End Stated.

(** The specification's statement about the store, as it is written: from
    any state, a reset, then storing one address, then loading gives the
    manifest with exactly that entry. *)
Definition reset_store_load_always `{Cli} (w : World) : Prop :=
  ∀ name addr, ∃ w1 w2,
    resetStore w = (OK tt, w1) ∧
    storeContractAddress name addr w1 = (OK tt, w2) ∧
    loadManifest w2 = (OK {[name := addr]}, w2).

(** ** Concrete collaborators for running the scripts *)

Module Sample.

Definition admin : Account :=
  {| address := "0xadmin"; privateKey := "0xsecret" |}.

Definition addressOf (a : Artifact) : string :=
  match a with
  | MiMC => "0x01"
  | Hasher => "0x02"
  | SignUpToken => "0x03"
  | SignUpTokenGatekeeper => "0x04"
  | FreeForAllSignUpGatekeeper => "0x05"
  | InitialVoiceCreditProxy => "0x06"
  | ConstantInitialVoiceCreditProxy => "0x07"
  | BatchUpdateStateTreeVerifier => "0x08"
  | QuadVoteTallyVerifier => "0x09"
  | MACI => "0x0a"
  end.

(** A deployer that always succeeds. *)
Definition deployer : Deployer :=
  λ _ req, Some (addressOf (artifact req)).

(** A deployer that fails on one artifact. *)
Definition deployerFailingOn (bad : Artifact) : Deployer :=
  λ _ req,
    if bool_decide (artifact req = bad) then None
    else Some (addressOf (artifact req)).

(** The platform's native big integers raise a [RangeError] on a
    negative exponent. *)
Definition native_pow_negative (b e : Z) : Result Z := Throw RangeError.

Fixpoint joinWith (sep : string) (parts : list string) : string :=
  match parts with
  | [] => ""
  | [a] => a
  | a :: rest => a +:+ sep +:+ joinWith sep rest
  end.

Definition platformWith (d : Deployer) : Platform :=
  {| genTestAccounts := λ _, [admin];
     genAccounts := [admin];
     genDeployer := λ _, d;
     genPubKey := λ k, (k + 1, k + 2);
     bigInt_of_string := λ s, default 0 (BigInt.ofString s);
     pow_negative := native_pow_negative;
     path_join := joinWith "/";
     dirname := "/maci/contracts/ts";
     writeError := λ _ _, None |}.

Definition config (state message voteOption : Z) : Config.t :=
  {| Config.env := "test";
     Config.maci_ :=
       {| Config.coordinatorPrivKey := "41";
          Config.trees :=
            {| Config.stateTreeDepth := state;
               Config.messageTreeDepth := message;
               Config.voteOptionTreeDepth := voteOption |};
          Config.quadVoteTallyBatchSize := 4;
          Config.messageBatchSize := 4;
          Config.voteOptionsMaxLeafIndex := 3;
          Config.signUpDurationInSeconds := 3600;
          Config.votingDurationInSeconds := 3600;
          Config.initialVoiceCreditBalance := 100 |} |}.

Definition world0 : World :=
  {| chain := []; console := []; files := ∅ |}.

Definition argsPlain : Args :=
  {| output := "deployedAddresses.json";
     signUpToken := None;
     initialVoiceCreditProxy := None |}.

Definition argsWithToken : Args :=
  {| output := "deployedAddresses.json";
     signUpToken := Some "0xT0KEN";
     initialVoiceCreditProxy := None |}.

Definition outputPath : string :=
  "/maci/contracts/ts/../deployedAddresses.json".

Definition cli : Cli :=
  {| contractAddressesStore := "contractAddresses.json";
     oldContractAddressesStore := "contractAddresses.old.json";
     deployVkRegistryOracle := λ _ _, Some "0x0b";
     waitOracle := λ _ _, true;
     bannerText := "MACI";
     success := λ s, "[ok] " +:+ s;
     renameError := λ _ _ _, None |}.

(** A store and an older archive side by side. *)
Definition worldWithArchive : World :=
  {| chain := []; console := [];
     files := <["contractAddresses.json" := {["MACI" := "0x0a"]}]>
              (<["contractAddresses.old.json" := {["MACI" := "0xfe"]}]> ∅) |}.

Definition platform : Platform := platformWith deployer.

Definition failingPlatform : Platform :=
  platformWith (deployerFailingOn SignUpTokenGatekeeper).

(** [deployMaci] on depths 32 and 64. *)
Definition maciRun : M MaciContracts :=
  deployMaci (H := platform) (config 32 64 2) deployer "0x04" "0x07"
    None None None None None None None None None None.

Definition gatekeeperRequest (token : string) : DeployRequest :=
  {| artifact := SignUpTokenGatekeeper; libraries := [];
     args := [VStr token] |}.

(** The MACI request of a run on depths 4, 4 and 2. *)
Definition maciRequest : DeployRequest :=
  {| artifact := MACI;
     libraries := [("MiMC", "0x01")];
     args :=
       [ VObj [ ("stateTreeDepth", VNum 4); ("messageTreeDepth", VNum 4);
                ("voteOptionTreeDepth", VNum 2) ];
         VObj [ ("tallyBatchSize", VNum 4); ("messageBatchSize", VNum 4) ];
         VObj [ ("maxUsers", VStr "15"); ("maxMessages", VStr "15");
                ("maxVoteOptions", VNum 3) ];
         VStr "0x04"; VStr "0x08"; VStr "0x09";
         VNum 3600; VNum 3600; VStr "0x07";
         VObj [ ("x", VStr "42"); ("y", VStr "43") ] ] |}.

(** The events of a run with a supplied token, up to the MACI request. *)
Definition beforeMaci : list Event :=
  [ Deployment {| artifact := ConstantInitialVoiceCreditProxy;
                  libraries := []; args := [VNum 100] |} (Some "0x07");
    Deployment (gatekeeperRequest "0xT0KEN") (Some "0x04");
    Deployment (plainRequest MiMC) (Some "0x01");
    Deployment (plainRequest BatchUpdateStateTreeVerifier) (Some "0x08");
    Deployment (plainRequest QuadVoteTallyVerifier) (Some "0x09") ].

(** The object a completed sample run writes. *)
Definition manifest : gmap string string :=
  <["MiMC" := "0x01"]>
  (<["BatchUpdateStateTreeVerifier" := "0x08"]>
  (<["QuadraticVoteTallyVerifier" := "0x09"]>
  (<["MACI" := "0x0a"]> ∅))).

Definition worldAfterReset : World :=
  (resetStore (H := cli) worldWithArchive).2.

End Sample.

(** ** Further observations of a run *)

(** The artifacts a list of events asks the deployer for, in order. *)
Fixpoint requested (evs : list Event) : list Artifact :=
  match evs with
  | [] => []
  | Deployment req _ :: rest => artifact req :: requested rest
  | _ :: rest => requested rest
  end.

(** The order in which [deployMaci] deploys. *)
Definition maciPlan : list Artifact :=
  [MiMC; BatchUpdateStateTreeVerifier; QuadVoteTallyVerifier; MACI].

(** The order in which [main] deploys, given which addresses are supplied. *)
Definition planOf (argv : Args) : list Artifact :=
  (if truthy (signUpToken argv) then [] else [SignUpToken])
  ++ (if truthy (initialVoiceCreditProxy argv) then []
      else [ConstantInitialVoiceCreditProxy])
  ++ SignUpTokenGatekeeper :: maciPlan.

(** An event that is a deployment the deployer accepted. *)
Definition succeeded (e : Event) : Prop :=
  match e with
  | Deployment _ (Some _) => True
  | _ => False
  end.

(** The lines a computation prints. *)
Definition console_of {A} (run : M A) (w : World) : list (list Printed) :=
  drop (length (console w)) (console (run w).2).

(** The request [deployConstantInitialVoiceCreditProxy] sends. *)
Definition proxyRequest (amount : Z) : DeployRequest :=
  {| artifact := ConstantInitialVoiceCreditProxy; libraries := [];
     args := [VNum amount] |}.

(** ** Further concrete collaborators *)

Module Scenario.

Definition argsEmptyToken : Args :=
  {| output := "deployedAddresses.json";
     signUpToken := Some "";
     initialVoiceCreditProxy := None |}.

Definition argsWithProxy : Args :=
  {| output := "deployedAddresses.json";
     signUpToken := None;
     initialVoiceCreditProxy := Some "0xPR0XY" |}.

(** A platform whose account helpers return no account. *)
Definition noAccounts : Platform :=
  {| genTestAccounts := λ _, [];
     genAccounts := [];
     genDeployer := λ _, Sample.deployer;
     genPubKey := λ k, (k + 1, k + 2);
     bigInt_of_string := λ s, default 0 (BigInt.ofString s);
     pow_negative := Sample.native_pow_negative;
     path_join := Sample.joinWith "/";
     dirname := "/maci/contracts/ts";
     writeError := λ _ _, None |}.

Definition failingVerifier : Deployer :=
  Sample.deployerFailingOn BatchUpdateStateTreeVerifier.

(** [deployMaci] with a deployer that fails on the first verifier. *)
Definition maciRunFailing : M MaciContracts :=
  deployMaci (H := Sample.platform) (Sample.config 4 4 2) failingVerifier
    "0x04" "0x07" None None None None None None None None None None.

(** [deployMaci] on a negative state depth. *)
Definition maciRunNegative : M MaciContracts :=
  deployMaci (H := Sample.platform) (Sample.config (-1) 4 2) Sample.deployer
    "0x04" "0x07" None None None None None None None None None None.

Definition cliDeployFails : Cli :=
  {| contractAddressesStore := "contractAddresses.json";
     oldContractAddressesStore := "contractAddresses.old.json";
     deployVkRegistryOracle := λ _ _, None;
     waitOracle := λ _ _, true;
     bannerText := "MACI";
     success := λ s, "[ok] " +:+ s;
     renameError := λ _ _ _, None |}.

Definition cliWaitFails : Cli :=
  {| contractAddressesStore := "contractAddresses.json";
     oldContractAddressesStore := "contractAddresses.old.json";
     deployVkRegistryOracle := λ _ _, Some "0x0b";
     waitOracle := λ _ _, false;
     bannerText := "MACI";
     success := λ s, "[ok] " +:+ s;
     renameError := λ _ _ _, None |}.

(** A chain that hands out a new address once something was deployed. *)
Definition cliFresh : Cli :=
  {| contractAddressesStore := "contractAddresses.json";
     oldContractAddressesStore := "contractAddresses.old.json";
     deployVkRegistryOracle := λ h _,
       match h with [] => Some "0x0b" | _ => Some "0x0c" end;
     waitOracle := λ _ _, true;
     bannerText := "MACI";
     success := λ s, "[ok] " +:+ s;
     renameError := λ _ _ _, None |}.


(** A platform on which the output directory does not exist. *)
Definition noOutputDirectory : Platform :=
  {| genTestAccounts := λ _, [Sample.admin];
     genAccounts := [Sample.admin];
     genDeployer := λ _, Sample.deployer;
     genPubKey := λ k, (k + 1, k + 2);
     bigInt_of_string := λ s, default 0 (BigInt.ofString s);
     pow_negative := Sample.native_pow_negative;
     path_join := Sample.joinWith "/";
     dirname := "/maci/contracts/ts";
     writeError := λ _ _, Some "ENOENT" |}.

(** [deployMaci] in another world, with other arguments, on the same
    private key as [Sample.maciRun]. *)
Definition maciRunElsewhere : M MaciContracts :=
  deployMaci (H := Sample.platform) (Sample.config 4 4 2) Sample.deployer
    "0xAA" "0xBB" None None None None None None None None None (Some true).

(** [deployMaci] with a coordinator key handed in. *)
Definition maciRunWithKey : M MaciContracts :=
  deployMaci (H := Sample.platform) (Sample.config 4 4 2) Sample.deployer
    "0x04" "0x07" None None None None None None None None
    (Some {| rawPubKey := (7, 9) |}) None.

(** A store next to an unrelated file. *)
Definition worldWithNotes : World :=
  {| chain := []; console := [];
     files := <["contractAddresses.json" := {["MACI" := "0x0a"]}]>
              (<["notes.json" := {["owner" := "admin"]}]> ∅) |}.

End Scenario.

(** ** Decimal encoding loses nothing *)

Lemma to_int_not_nil (z : Z) :
  Z.to_int z ≠ Decimal.Pos Decimal.Nil ∧ Z.to_int z ≠ Decimal.Neg Decimal.Nil.
Proof.
  destruct z as [|p|p]; simpl; split; try discriminate;
    intros [= H]; exact (DecimalPos.Unsigned.to_uint_nonnil p H).
Qed.

Lemma toString_ofString (z : Z) :
  BigInt.ofString (BigInt.toString z) = Some z.
Proof.
  unfold BigInt.ofString, BigInt.toString.
  destruct (to_int_not_nil z) as [Hp Hn].
  rewrite NilZero.isi by assumption.
  simpl. f_equal. apply DecimalZ.of_to.
Qed.

Lemma toString_inj (a b : Z) :
  BigInt.toString a = BigInt.toString b → a = b.
Proof.
  intros H. apply (f_equal BigInt.ofString) in H.
  rewrite !toString_ofString in H. congruence.
Qed.

Example toString_15 : BigInt.toString 15 = "15".
Proof. reflexivity. Qed.

Example toString_neg : BigInt.toString (-7) = "-7".
Proof. reflexivity. Qed.

(** ** Proof support *)

Lemma drop_own_length {A} (l : list A) : drop (length l) l = [].
Proof. by apply drop_ge. Qed.

Lemma cons_split {A} (x e : A) l pre post :
  x :: l = pre ++ e :: post →
  (pre = [] ∧ x = e ∧ l = post) ∨
  (∃ pre', pre = x :: pre' ∧ l = pre' ++ e :: post).
Proof. destruct pre as [|y pre]; intros [= -> ->]; eauto. Qed.

(** Runs a script symbolically: every branch on an oracle answer becomes
    a case, and the events added to the chain become an explicit list. *)
Ltac run_script :=
  cbv [events_of result_of files_after stateDepthOf messageDepthOf accountsOf
       plainRequest main deployMaci deploySignupTokenGatekeeper
       deploySignupToken deployConstantInitialVoiceCreditProxy log
       mbind M_bind mret M_ret throw liftResult deploy
       console_log writeFileSync putFile BigInt.pow negb
       BigInt.of_number BigInt.sub];
  try match goal with
  | |- context [if ?c then genTestAccounts 1 else genAccounts] =>
      generalize (if c then genTestAccounts 1 else genAccounts);
      intros ?accounts
  end;
  repeat (case_match; simplify_eq;
          cbn [chain console files fst snd contractAddress mimcContract
               maciContract batchUstVerifierContract
               quadVoteTallyVerifierContract default from_option id]);
  rewrite <- ?app_assoc, ?drop_app_length, ?drop_own_length;
  cbn [app].

(** Locates an event inside an explicit list of events. *)
Ltac split_events :=
  repeat match goal with
  | H : [] = _ ++ _ :: _ |- _ => by destruct (app_cons_not_nil _ _ _ H)
  | H : _ :: _ = _ ++ _ :: _ |- _ =>
      apply cons_split in H as [(-> & ? & ?)|(? & -> & H)]
  end; simplify_eq.

Ltac find_event := solve [repeat constructor].

(** ** The main-contract deployment *)

Section DeployMaci.
Context `{Platform}.
Variable config : Config.t.

(** Shape of the MACI request [deployMaci] issues: it is the last event,
    it follows the three library deployments, and its arguments are built
    from their addresses, the two powers and the resolved key. *)
Lemma deployMaci_request deployer gk ivcp sd md vd tb mb vo su vt pk q
      w pre req res post :
  events_of (deployMaci config deployer gk ivcp sd md vd tb mb vo su vt pk q) w
    = pre ++ Deployment req res :: post →
  artifact req = MACI →
  ∃ mimc bust qvt usersPow messagesPow,
    pre = [ Deployment (plainRequest MiMC) (Some mimc);
            Deployment (plainRequest BatchUpdateStateTreeVerifier) (Some bust);
            Deployment (plainRequest QuadVoteTallyVerifier) (Some qvt) ] ∧
    post = [] ∧
    BigInt.pow pow_negative 2 (stateDepthOf config sd) = OK usersPow ∧
    BigInt.pow pow_negative 2 (messageDepthOf config md) = OK messagesPow ∧
    libraries req = [("MiMC", mimc)] ∧
    args req !! 2%nat = Some (VObj
      [ ("maxUsers", VStr (BigInt.toString (usersPow - 1)));
        ("maxMessages", VStr (BigInt.toString (messagesPow - 1)));
        ("maxVoteOptions",
         VNum (default (Config.voteOptionsMaxLeafIndex (Config.maci_ config)) vo)) ]) ∧
    args req !! 3%nat = Some (VStr gk) ∧
    args req !! 4%nat = Some (VStr bust) ∧
    args req !! 5%nat = Some (VStr qvt) ∧
    args req !! 8%nat = Some (VStr ivcp) ∧
    args req !! 9%nat = Some (VObj
      [ ("x", VStr (BigInt.toString
                      (rawPubKey (resolveCoordinatorKey config pk)).1));
        ("y", VStr (BigInt.toString
                      (rawPubKey (resolveCoordinatorKey config pk)).2)) ]).
Proof.
  run_script.
  all: intros Hev Hart; split_events; try discriminate Hart.
  all: do 5 eexists; cbn [libraries args BigInt.t] in *.
  all: repeat split; try reflexivity; try eassumption.
Qed.

Lemma pow_nonneg_exact (e : Z) :
  0 ≤ e → BigInt.pow pow_negative 2 e = OK (2 ^ e).
Proof.
  intros He. unfold BigInt.pow.
  destruct (Z.ltb_spec e 0) as [Hlt|_]; [lia|reflexivity].
Qed.

(** With non-negative depths and a deployer that accepts every request,
    [deployMaci] runs to the end: three library deployments, then MACI. *)
Lemma deployMaci_completes deployer gk ivcp sd md vd tb mb vo su vt pk q w :
  0 ≤ stateDepthOf config sd →
  0 ≤ messageDepthOf config md →
  (∀ h r, deployer h r ≠ None) →
  ∃ mimc bust qvt maci req,
    result_of (deployMaci config deployer gk ivcp sd md vd tb mb vo su vt pk q) w
      = OK {| batchUstVerifierContract := {| contractAddress := bust |};
              quadVoteTallyVerifierContract := {| contractAddress := qvt |};
              mimcContract := {| contractAddress := mimc |};
              maciContract := {| contractAddress := maci |} |} ∧
    events_of (deployMaci config deployer gk ivcp sd md vd tb mb vo su vt pk q) w
      = [ Deployment (plainRequest MiMC) (Some mimc);
          Deployment (plainRequest BatchUpdateStateTreeVerifier) (Some bust);
          Deployment (plainRequest QuadVoteTallyVerifier) (Some qvt);
          Deployment req (Some maci) ] ∧
    artifact req = MACI.
Proof.
  intros Hd Hm Hdep. unfold stateDepthOf, messageDepthOf in Hd, Hm.
  run_script.
  all: try match goal with
       | E : _ = None |- _ => by destruct (Hdep _ _ E)
       | E : (_ <? 0) = true |- _ => apply Z.ltb_lt in E; lia
       end.
  all: do 5 eexists; repeat split; reflexivity.
Qed.

(** C1. For depths d and m (non-negative, so in particular for every
    valid positive depth), the MACI request issued by [deployMaci] carries
    maxUsers and maxMessages as the decimal numerals of exactly 2^d - 1 and
    2^m - 1: reading the numerals back gives these integers, whatever their
    size; and when the deployer accepts every request that MACI request is
    indeed issued. *)
Theorem deployMaci_capacities_exact
    deployer gk ivcp sd md vd tb mb vo su vt pk q w :
  0 ≤ stateDepthOf config sd →
  0 ≤ messageDepthOf config md →
  (∀ pre req res post,
     events_of (deployMaci config deployer gk ivcp sd md vd tb mb vo su vt pk q) w
       = pre ++ Deployment req res :: post →
     artifact req = MACI →
     ∃ maxUsers maxMessages maxVoteOptions,
       args req !! 2%nat = Some (VObj
         [ ("maxUsers", VStr maxUsers);
           ("maxMessages", VStr maxMessages);
           ("maxVoteOptions", VNum maxVoteOptions) ]) ∧
       maxUsers = BigInt.toString (2 ^ stateDepthOf config sd - 1) ∧
       maxMessages = BigInt.toString (2 ^ messageDepthOf config md - 1) ∧
       BigInt.ofString maxUsers = Some (2 ^ stateDepthOf config sd - 1) ∧
       BigInt.ofString maxMessages = Some (2 ^ messageDepthOf config md - 1)) ∧
  ((∀ h r, deployer h r ≠ None) →
   ∃ pre req res,
     events_of (deployMaci config deployer gk ivcp sd md vd tb mb vo su vt pk q) w
       = pre ++ [Deployment req res] ∧
     artifact req = MACI).
Proof.
  intros Hd Hm. split.
  - intros pre req res post Hev Hart.
    destruct (deployMaci_request _ _ _ _ _ _ _ _ _ _ _ _ _ _ _ _ _ _ Hev Hart)
      as (mimc & bust & qvt & up & mp & _ & _ & Hup & Hmp & _ & Hargs & _).
    rewrite pow_nonneg_exact in Hup, Hmp by assumption.
    injection Hup as <-. injection Hmp as <-.
    eexists _, _, _. split; [exact Hargs|].
    by rewrite !toString_ofString.
  - intros Hdep.
    destruct (deployMaci_completes deployer gk ivcp sd md vd tb mb vo su vt pk q
                w Hd Hm Hdep)
      as (mimc & bust & qvt & maci & req & _ & Hev & Hart).
    exists [ Deployment (plainRequest MiMC) (Some mimc);
             Deployment (plainRequest BatchUpdateStateTreeVerifier) (Some bust);
             Deployment (plainRequest QuadVoteTallyVerifier) (Some qvt) ],
           req, (Some maci).
    by rewrite Hev.
Qed.

(** A coordinator key handed to [deployMaci] reaches the MACI constructor
    as it is. *)
Lemma deployMaci_uses_resolved_key deployer gk ivcp sd md vd tb mb vo su vt
      pk q w pre req res post :
  events_of (deployMaci config deployer gk ivcp sd md vd tb mb vo su vt pk q) w
    = pre ++ Deployment req res :: post →
  artifact req = MACI →
  args req !! 9%nat = Some (VObj
    [ ("x", VStr (BigInt.toString
                    (rawPubKey (resolveCoordinatorKey config pk)).1));
      ("y", VStr (BigInt.toString
                    (rawPubKey (resolveCoordinatorKey config pk)).2)) ]).
Proof.
  intros Hev Hart.
  destruct (deployMaci_request _ _ _ _ _ _ _ _ _ _ _ _ _ _ _ _ _ _ Hev Hart)
    as (? & ? & ? & ? & ? & _ & _ & _ & _ & _ & _ & _ & _ & _ & _ & Hkey).
  exact Hkey.
Qed.

End DeployMaci.

(** ** The orchestrating script *)

Ltac invert_member :=
  repeat match goal with
  | H : _ ∈ [] |- _ => by apply elem_of_nil in H
  | H : _ ∈ _ :: _ |- _ => apply elem_of_cons in H as [H|H]
  end; simplify_eq.

Lemma truthy_nonempty (t : string) : t ≠ "" → truthy (Some t) = true.
Proof.
  intros Hne. unfold truthy.
  destruct (String.eqb_spec t ""); [contradiction|reflexivity].
Qed.

Section Main.
Context `{Platform}.
Variable config : Config.t.

(** What a completed run leaves behind: the four addresses the deployer
    reported for MiMC, the two verifiers and MACI, written as one object
    at the output path. *)
Lemma main_completed argv w :
  result_of (main config argv) w = OK tt →
  ∃ token gatekeeper mimc bust qvt maci reqMaci,
    files_after (main config argv) w =
      <[path_join [dirname; ".."; output argv] :=
          <["MiMC" := mimc]>
          (<["BatchUpdateStateTreeVerifier" := bust]>
          (<["QuadraticVoteTallyVerifier" := qvt]>
          (<["MACI" := maci]> ∅)))]> (files w) ∧
    last (events_of (main config argv) w)
      = Some (Deployment reqMaci (Some maci)) ∧
    artifact reqMaci = MACI ∧
    Deployment {| artifact := SignUpTokenGatekeeper; libraries := [];
                  args := [VStr token] |} (Some gatekeeper)
      ∈ events_of (main config argv) w ∧
    Deployment (plainRequest MiMC) (Some mimc)
      ∈ events_of (main config argv) w ∧
    Deployment (plainRequest BatchUpdateStateTreeVerifier) (Some bust)
      ∈ events_of (main config argv) w ∧
    Deployment (plainRequest QuadVoteTallyVerifier) (Some qvt)
      ∈ events_of (main config argv) w.
Proof.
  run_script.
  all: intros Hres; try discriminate Hres.
  all: eexists _, _, _, _, _, _, _.
  all: split; [reflexivity|].
  all: split; [reflexivity|].
  all: split; [reflexivity|].
  all: repeat split; find_event.
Qed.

(** C6. In every run, a MACI deployment request is preceded by successful
    deployments of the gatekeeper, MiMC, the BatchUpdateStateTree verifier
    and the QuadVoteTally verifier, and the request links MiMC's address
    and passes the gatekeeper's and the verifiers' addresses to the
    constructor. *)
Theorem main_maci_after_dependencies argv w pre req res post :
  events_of (main config argv) w = pre ++ Deployment req res :: post →
  artifact req = MACI →
  ∃ gatekeeper mimc bust qvt token,
    Deployment {| artifact := SignUpTokenGatekeeper; libraries := [];
                  args := [VStr token] |} (Some gatekeeper) ∈ pre ∧
    Deployment (plainRequest MiMC) (Some mimc) ∈ pre ∧
    Deployment (plainRequest BatchUpdateStateTreeVerifier) (Some bust) ∈ pre ∧
    Deployment (plainRequest QuadVoteTallyVerifier) (Some qvt) ∈ pre ∧
    libraries req = [("MiMC", mimc)] ∧
    args req !! 3%nat = Some (VStr gatekeeper) ∧
    args req !! 4%nat = Some (VStr bust) ∧
    args req !! 5%nat = Some (VStr qvt).
Proof.
  run_script.
  all: intros Hev Hart; split_events; try discriminate Hart.
  all: do 5 eexists; cbn [libraries args].
  all: repeat split; try reflexivity; find_event.
Qed.

(** C3, as the script has it. A completed run persists exactly four
    entries, named MiMC, BatchUpdateStateTreeVerifier,
    QuadraticVoteTallyVerifier and MACI, each holding the address the
    deployer reported for that contract in this run (non-empty whenever
    the deployer reports no empty address); the token, the voice-credit
    proxy and the gatekeeper have no entry. *)
Theorem main_manifest_entries argv w :
  result_of (main config argv) w = OK tt →
  ∃ mimc bust qvt maci reqMaci m,
    files_after (main config argv) w !! outputPathOf argv = Some m ∧
    m = <["MiMC" := mimc]>
        (<["BatchUpdateStateTreeVerifier" := bust]>
        (<["QuadraticVoteTallyVerifier" := qvt]>
        (<["MACI" := maci]> ∅))) ∧
    dom m = {[ "MiMC"; "BatchUpdateStateTreeVerifier";
               "QuadraticVoteTallyVerifier"; "MACI" ]} ∧
    artifact reqMaci = MACI ∧
    Deployment (plainRequest MiMC) (Some mimc)
      ∈ events_of (main config argv) w ∧
    Deployment (plainRequest BatchUpdateStateTreeVerifier) (Some bust)
      ∈ events_of (main config argv) w ∧
    Deployment (plainRequest QuadVoteTallyVerifier) (Some qvt)
      ∈ events_of (main config argv) w ∧
    Deployment reqMaci (Some maci) ∈ events_of (main config argv) w ∧
    ((∀ key h r, genDeployer key h r ≠ Some "") →
     mimc ≠ "" ∧ bust ≠ "" ∧ qvt ≠ "" ∧ maci ≠ "").
Proof.
  intros Hres.
  destruct (main_completed argv w Hres)
    as (token & gk & mimc & bust & qvt & maci & reqMaci
        & Hfiles & Hlast & Hart & Hgk & Hmimc & Hbust & Hqvt).
  assert (Hmaci : Deployment reqMaci (Some maci)
                    ∈ events_of (main config argv) w).
  { apply last_Some in Hlast as [l' ->]. set_solver. }
  eexists mimc, bust, qvt, maci, reqMaci, _.
  split; [rewrite Hfiles; apply lookup_insert_eq|].
  split; [reflexivity|].
  split; [rewrite !dom_insert_L, dom_empty_L; set_solver|].
  do 5 (split; [assumption|]).
  intros Hne.
  assert (Hreported : ∀ req a,
            Deployment req (Some a) ∈ events_of (main config argv) w →
            a ≠ "").
  { clear -Hne. intros req a. run_script.
    all: intros Hin; invert_member.
    all: intros ->; eapply Hne; eassumption. }
  split; [|split; [|split]]; eapply Hreported; eassumption.
Qed.

(** Both facts about a supplied token at once, for every event of the
    run. *)
Lemma main_supplied_token_events argv w t req res :
  signUpToken argv = Some t → t ≠ "" →
  Deployment req res ∈ events_of (main config argv) w →
  artifact req ≠ SignUpToken ∧
  (artifact req = SignUpTokenGatekeeper → args req = [VStr t]).
Proof.
  intros Hs Hne. cbv [events_of main].
  rewrite Hs, (truthy_nonempty t Hne).
  run_script.
  all: intros Hin; invert_member; cbn [artifact args].
  all: by split.
Qed.

(** C2, as the script has it. When a non-empty signup-token address is
    supplied, no token deployment is requested and the gatekeeper is
    constructed on the supplied address, verbatim; the persisted object of
    a completed run has the keys MiMC, BatchUpdateStateTreeVerifier,
    QuadraticVoteTallyVerifier and MACI only, so no token entry. *)
Theorem main_reuses_supplied_token argv w t :
  signUpToken argv = Some t → t ≠ "" →
  (∀ req res, Deployment req res ∈ events_of (main config argv) w →
              artifact req ≠ SignUpToken) ∧
  (∀ req res, Deployment req res ∈ events_of (main config argv) w →
              artifact req = SignUpTokenGatekeeper →
              args req = [VStr t]) ∧
  (result_of (main config argv) w = OK tt →
   ∃ m, files_after (main config argv) w !! outputPathOf argv = Some m ∧
        dom m = {[ "MiMC"; "BatchUpdateStateTreeVerifier";
                   "QuadraticVoteTallyVerifier"; "MACI" ]}).
Proof.
  intros Hs Hne. split; [|split].
  - intros req res Hin.
    exact (proj1 (main_supplied_token_events argv w t req res Hs Hne Hin)).
  - intros req res Hin.
    exact (proj2 (main_supplied_token_events argv w t req res Hs Hne Hin)).
  - intros Hres.
    destruct (main_completed argv w Hres)
      as (? & ? & mimc & bust & qvt & maci & ? & Hfiles & _).
    eexists. split; [rewrite Hfiles; apply lookup_insert_eq|].
    rewrite !dom_insert_L, dom_empty_L. set_solver.
Qed.

(** C4, as the script has it. No depth is validated: whatever the tree
    depths, zero and negative ones included, once an account is available
    and the deployer accepts every request, the gatekeeper, MiMC and both
    verifiers are deployed.  No run is stopped on account of a depth before
    the chain is touched. *)
Theorem main_validates_no_depth argv w admin :
  accountsOf config !! 0%nat = Some admin →
  (∀ h r, genDeployer (privateKey admin) h r ≠ None) →
  ∃ token gatekeeper mimc bust qvt,
    Deployment {| artifact := SignUpTokenGatekeeper; libraries := [];
                  args := [VStr token] |} (Some gatekeeper)
      ∈ events_of (main config argv) w ∧
    Deployment (plainRequest MiMC) (Some mimc)
      ∈ events_of (main config argv) w ∧
    Deployment (plainRequest BatchUpdateStateTreeVerifier) (Some bust)
      ∈ events_of (main config argv) w ∧
    Deployment (plainRequest QuadVoteTallyVerifier) (Some qvt)
      ∈ events_of (main config argv) w.
Proof.
  intros Hacc Hdep. revert Hacc.
  run_script.
  all: intros [= <-].
  all: try match goal with
       | E : _ = None |- _ => by destruct (Hdep _ _ E)
       end.
  all: do 5 eexists; repeat split; find_event.
Qed.

(** C5, as the script has it. When the gatekeeper deployment fails the
    run throws the deployer's failure, nothing after the gatekeeper is
    attempted (the only requests are for the token, the voice-credit proxy
    and the gatekeeper), and no file is written: no partial manifest is
    surfaced. *)
Theorem main_gatekeeper_failure argv w :
  gatekeeper_failed (events_of (main config argv) w) →
  result_of (main config argv) w
    = Throw (DeployFailed SignUpTokenGatekeeper) ∧
  files_after (main config argv) w = files w ∧
  (∀ req res,
     Deployment req res ∈ events_of (main config argv) w →
     artifact req = SignUpToken ∨
     artifact req = ConstantInitialVoiceCreditProxy ∨
     artifact req = SignUpTokenGatekeeper).
Proof.
  unfold gatekeeper_failed.
  run_script.
  all: intros (rq & Hart & Hin); invert_member; try discriminate Hart.
  all: split; [reflexivity|split; [reflexivity|]].
  all: intros req res Hin; invert_member; cbn [artifact]; auto.
Qed.

End Main.

(** ** The address store *)

Section Store.
Context `{Cli}.

Lemma resetStore_run w :
  resetStore w =
    match files w !! contractAddressesStore with
    | Some m =>
        match renameError (files w) contractAddressesStore
                oldContractAddressesStore with
        | Some code => (Throw (FsError code), w)
        | None =>
            (OK tt,
             {| chain := chain w; console := console w;
                files := <[contractAddressesStore := ∅]>
                           (<[oldContractAddressesStore := m]>
                              (delete contractAddressesStore (files w))) |})
        end
    | None => (Throw (ENOENT contractAddressesStore), w)
    end.
Proof.
  unfold resetStore, resetContractAddresses, renameSync, putFile.
  cbv [mbind M_bind].
  destruct (files w !! contractAddressesStore); [|reflexivity].
  by destruct (renameError _ _ _).
Qed.

(** C8, as the command has it. A reset returns normally only from a state
    that has a store file; after a reset that returned normally, storing one
    address and loading the manifest gives the manifest with exactly that
    entry. *)
Theorem reset_store_load w w1 name addr :
  resetStore w = (OK tt, w1) →
  is_Some (files w !! contractAddressesStore) ∧
  ∃ w2,
    storeContractAddress name addr w1 = (OK tt, w2) ∧
    loadManifest w2 = (OK {[name := addr]}, w2).
Proof.
  rewrite resetStore_run.
  destruct (files w !! contractAddressesStore) as [m|]; [|discriminate].
  destruct (renameError _ _ _); [discriminate|].
  intros [= <-]. split; [by eexists|].
  unfold storeContractAddress, loadManifest, putFile.
  cbn [files chain console].
  eexists. split; [reflexivity|].
  cbn [files]. rewrite !lookup_insert_eq. cbn [default from_option id].
  by rewrite insert_empty.
Qed.


(** C10. With no store file, the command throws the rename's [ENOENT]:
    nothing is deployed and no file is created or changed. *)
Theorem deployVkRegistryContract_first_run quiet w :
  files w !! contractAddressesStore = None →
  result_of (deployVkRegistryContract quiet) w
    = Throw (ENOENT contractAddressesStore) ∧
  events_of (deployVkRegistryContract quiet) w = [] ∧
  files_after (deployVkRegistryContract quiet) w = files w.
Proof.
  intros Hnone.
  unfold result_of, events_of, files_after, deployVkRegistryContract.
  unfold banner, console_log, renameSync. cbv [mbind M_bind].
  cbn [files chain]. rewrite Hnone. cbn [fst snd files chain].
  by rewrite drop_own_length.
Qed.

(** A completed command leaves the store with the VkRegistry entry
    alone. *)
Lemma deployVkRegistryContract_records quiet w :
  result_of (deployVkRegistryContract quiet) w = OK tt →
  ∃ addr,
    VkRegistryDeployment (Some addr)
      ∈ events_of (deployVkRegistryContract quiet) w ∧
    files_after (deployVkRegistryContract quiet) w !! contractAddressesStore
      = Some {["VkRegistry" := addr]}.
Proof.
  unfold result_of, events_of, files_after, deployVkRegistryContract.
  unfold banner, logGreen, console_log, renameSync, resetContractAddresses,
    deployVkRegistry, waitDeployTransaction, storeContractAddress,
    putFile.
  cbv [mbind M_bind mret M_ret negb].
  repeat (case_match; simplify_eq; cbn [files chain console fst snd]).
  all: intros Hres; try discriminate Hres.
  all: rewrite <- ?app_assoc, ?drop_app_length; cbn [app].
  all: eexists; split; [find_event|].
  all: rewrite !lookup_insert_eq; cbn [default from_option id].
  all: by rewrite insert_empty.
Qed.

End Store.

(** ** Coordinator key *)

(** C7. The coordinator key [deployMaci] hands to the MACI constructor
    depends on nothing but the supplied key or, without one, the configured
    private key.  Two invocations without a key and on the same private key
    pass the same key, whatever the worlds they run in, their deployers and
    their other arguments; an invocation with a key passes that key's two
    coordinates unchanged, whatever the private key. *)
Theorem deployMaci_coordinator_key `{Platform} (c1 c2 : Config.t) :
  Config.coordinatorPrivKey (Config.maci_ c1)
    = Config.coordinatorPrivKey (Config.maci_ c2) →
  (∀ dep1 gk1 iv1 sd1 md1 vd1 tb1 mb1 vo1 su1 vt1 q1 w1 pre1 req1 res1 post1
     dep2 gk2 iv2 sd2 md2 vd2 tb2 mb2 vo2 su2 vt2 q2 w2 pre2 req2 res2 post2,
     events_of
       (deployMaci c1 dep1 gk1 iv1 sd1 md1 vd1 tb1 mb1 vo1 su1 vt1 None q1) w1
       = pre1 ++ Deployment req1 res1 :: post1 →
     artifact req1 = MACI →
     events_of
       (deployMaci c2 dep2 gk2 iv2 sd2 md2 vd2 tb2 mb2 vo2 su2 vt2 None q2) w2
       = pre2 ++ Deployment req2 res2 :: post2 →
     artifact req2 = MACI →
     args req1 !! 9%nat = args req2 !! 9%nat ∧
     ∃ x y, args req1 !! 9%nat
              = Some (VObj [("x", VStr x); ("y", VStr y)])) ∧
  (∀ deployer gk ivcp sd md vd tb mb vo su vt k q w pre req res post,
     events_of
       (deployMaci c1 deployer gk ivcp sd md vd tb mb vo su vt (Some k) q) w
       = pre ++ Deployment req res :: post →
     artifact req = MACI →
     args req !! 9%nat = Some (VObj
       [ ("x", VStr (BigInt.toString (rawPubKey k).1));
         ("y", VStr (BigInt.toString (rawPubKey k).2)) ])).
Proof.
  intros Hkey. split.
  - intros * Hev1 Hart1 Hev2 Hart2.
    rewrite (deployMaci_uses_resolved_key c1 _ _ _ _ _ _ _ _ _ _ _ _ _ _ _ _
               _ _ Hev1 Hart1).
    rewrite (deployMaci_uses_resolved_key c2 _ _ _ _ _ _ _ _ _ _ _ _ _ _ _ _
               _ _ Hev2 Hart2).
    unfold resolveCoordinatorKey. rewrite Hkey. eauto.
  - intros * Hev Hart.
    exact (deployMaci_uses_resolved_key c1 _ _ _ _ _ _ _ _ _ _ _ _ _ _ _ _ _ _
             Hev Hart).
Qed.

(** ** The statements the scripts do not meet *)

Lemma sample_files_with_token :
  files_after (main (H := Sample.platform) (Sample.config 4 4 2)
                 Sample.argsWithToken) Sample.world0
    !! outputPathOf (H := Sample.platform) Sample.argsWithToken
  = Some Sample.manifest.
Proof. vm_compute. reflexivity. Qed.

Lemma sample_files_plain :
  files_after (main (H := Sample.platform) (Sample.config 4 4 2)
                 Sample.argsPlain) Sample.world0
    !! outputPathOf (H := Sample.platform) Sample.argsPlain
  = Some Sample.manifest.
Proof. vm_compute. reflexivity. Qed.

Lemma sample_manifest_values (a : string) :
  a ≠ "0x01" → a ≠ "0x08" → a ≠ "0x09" → a ≠ "0x0a" →
  ∀ name, Sample.manifest !! name ≠ Some a.
Proof.
  intros H1 H8 H9 Ha name Hname.
  assert (Hall : map_Forall (λ _ b, b ≠ a) Sample.manifest).
  { unfold Sample.manifest.
    repeat (apply map_Forall_insert_2; [congruence|]).
    apply map_Forall_empty. }
  exact (Hall name a Hname eq_refl).
Qed.

(** Against C2 as stated: a run with the token address 0xT0KEN supplied
    completes, and no entry of the file it writes holds that address. *)
Lemma supplied_token_not_in_manifest :
  ¬ supplied_token_in_manifest (H := Sample.platform)
      (Sample.config 4 4 2) Sample.argsWithToken Sample.world0.
Proof.
  intros Hc.
  destruct (Hc "0xT0KEN" eq_refl ltac:(discriminate))
    as (_ & m & Hm & name & Hname).
  rewrite sample_files_with_token in Hm. injection Hm as <-.
  by eapply sample_manifest_values in Hname.
Qed.

(** Against C3 as stated: a completed run deploys the gatekeeper at 0x04,
    and no entry of the file it writes holds that address. *)
Lemma manifest_misses_gatekeeper :
  ¬ manifest_covers_plan (H := Sample.platform)
      (Sample.config 4 4 2) Sample.argsPlain Sample.world0.
Proof.
  intros Hc.
  destruct (Hc eq_refl) as (m & Hm & Hall & _).
  destruct (Hall (Sample.gatekeeperRequest "0x03") "0x04") as (name & Hname).
  { vm_compute. find_event. }
  rewrite sample_files_plain in Hm. injection Hm as <-.
  by eapply sample_manifest_values in Hname.
Qed.

(** Against C4 as stated: with state and message depth 0 and vote-option
    depth -1 the run does not fail. *)
Lemma zero_depth_run_completes :
  ¬ rejects_nonpositive_depths (H := Sample.platform)
      (Sample.config 0 0 (-1)) Sample.argsPlain Sample.world0.
Proof.
  intros Hc. destruct Hc as ((e & He) & _).
  - left. simpl. lia.
  - vm_compute in He. discriminate He.
Qed.

(** Against C5 as stated: when the gatekeeper deployment fails there is
    no file at the output path afterwards. *)
Lemma no_partial_manifest_surfaced :
  ¬ surfaces_partial_manifest (H := Sample.failingPlatform)
      (Sample.config 4 4 2) Sample.argsPlain Sample.world0.
Proof.
  intros Hc. destruct Hc as (_ & m & Hm & _).
  - exists (Sample.gatekeeperRequest "0x03").
    split; [reflexivity|vm_compute; find_event].
  - vm_compute in Hm. discriminate Hm.
Qed.

(** Against C8 as stated: with no store file the reset throws, so the
    sequence does not get to store or load anything. *)
Lemma reset_fails_without_store :
  ¬ reset_store_load_always (H := Sample.cli) Sample.world0.
Proof.
  intros Hc.
  destruct (Hc "X" "0xabc") as (w1 & w2 & Hreset & _).
  vm_compute in Hreset. discriminate Hreset.
Qed.

(** ** The theorems at concrete runs *)

Lemma deployMaci_capacities_exact_witness :
  0 ≤ stateDepthOf (Sample.config 32 64 2) None ∧
  0 ≤ messageDepthOf (Sample.config 32 64 2) None ∧
  ∃ pre req res maxVoteOptions,
    events_of Sample.maciRun Sample.world0 = pre ++ [Deployment req res] ∧
    artifact req = MACI ∧
    args req !! 2%nat = Some (VObj
      [ ("maxUsers", VStr "4294967295");
        ("maxMessages", VStr "18446744073709551615");
        ("maxVoteOptions", VNum maxVoteOptions) ]).
Proof.
  assert (Hd : 0 ≤ stateDepthOf (Sample.config 32 64 2) None)
    by (vm_compute; discriminate).
  assert (Hm : 0 ≤ messageDepthOf (Sample.config 32 64 2) None)
    by (vm_compute; discriminate).
  split; [exact Hd|split; [exact Hm|]].
  destruct (deployMaci_capacities_exact (H := Sample.platform) (Sample.config 32 64 2)
              Sample.deployer "0x04" "0x07"
              None None None None None None None None None None
              Sample.world0 Hd Hm) as [Hsafe Hlive].
  destruct Hlive as (pre & req & res & Hev & Hart); [discriminate|].
  destruct (Hsafe pre req res [] Hev Hart)
    as (mu & mm & mv & Hargs & -> & -> & _).
  exists pre, req, res, mv. split; [exact Hev|split; [exact Hart|]].
  exact Hargs.
Defined.

Lemma deployMaci_coordinator_key_witness :
  Config.coordinatorPrivKey (Config.maci_ (Sample.config 32 64 2))
    = Config.coordinatorPrivKey (Config.maci_ (Sample.config 4 4 2)) ∧
  ∃ pre1 req1 res1 pre2 req2 res2 pre3 req3 res3,
    events_of Sample.maciRun Sample.world0
      = pre1 ++ [Deployment req1 res1] ∧
    events_of Scenario.maciRunElsewhere Sample.worldWithArchive
      = pre2 ++ [Deployment req2 res2] ∧
    events_of Scenario.maciRunWithKey Sample.world0
      = pre3 ++ [Deployment req3 res3] ∧
    args req1 !! 9%nat = args req2 !! 9%nat ∧
    args req3 !! 9%nat
      = Some (VObj [("x", VStr "7"); ("y", VStr "9")]).
Proof.
  split; [reflexivity|].
  destruct (deployMaci_coordinator_key (H := Sample.platform)
              (Sample.config 32 64 2) (Sample.config 4 4 2) eq_refl)
    as [Hsame _].
  destruct (deployMaci_coordinator_key (H := Sample.platform)
              (Sample.config 4 4 2) (Sample.config 4 4 2) eq_refl)
    as [_ Hsupplied].
  assert (Hev1 : ∃ pre req res,
            events_of Sample.maciRun Sample.world0
              = pre ++ [Deployment req res] ∧ artifact req = MACI)
    by (vm_compute; eexists [_; _; _], _, _; split; reflexivity).
  assert (Hev2 : ∃ pre req res,
            events_of Scenario.maciRunElsewhere Sample.worldWithArchive
              = pre ++ [Deployment req res] ∧ artifact req = MACI)
    by (vm_compute; eexists [_; _; _], _, _; split; reflexivity).
  assert (Hev3 : ∃ pre req res,
            events_of Scenario.maciRunWithKey Sample.world0
              = pre ++ [Deployment req res] ∧ artifact req = MACI)
    by (vm_compute; eexists [_; _; _], _, _; split; reflexivity).
  destruct Hev1 as (pre1 & req1 & res1 & Hev1 & Hart1).
  destruct Hev2 as (pre2 & req2 & res2 & Hev2 & Hart2).
  destruct Hev3 as (pre3 & req3 & res3 & Hev3 & Hart3).
  exists pre1, req1, res1, pre2, req2, res2, pre3, req3, res3.
  split; [exact Hev1|split; [exact Hev2|split; [exact Hev3|split]]].
  - exact (proj1 (Hsame _ _ _ _ _ _ _ _ _ _ _ _ _ _ _ _ _
                    _ _ _ _ _ _ _ _ _ _ _ _ _ _ _ _ _
                    Hev1 Hart1 Hev2 Hart2)).
  - exact (Hsupplied _ _ _ _ _ _ _ _ _ _ _ _ _ _ _ _ _ _ Hev3 Hart3).
Defined.

Lemma main_maci_after_dependencies_witness :
  events_of (main (H := Sample.platform) (Sample.config 4 4 2) Sample.argsWithToken)
      Sample.world0
    = Sample.beforeMaci ++ Deployment Sample.maciRequest (Some "0x0a") :: [] ∧
  artifact Sample.maciRequest = MACI ∧
  ∃ gatekeeper mimc bust qvt token,
    Deployment (Sample.gatekeeperRequest token) (Some gatekeeper) ∈ Sample.beforeMaci ∧
    Deployment (plainRequest MiMC) (Some mimc) ∈ Sample.beforeMaci ∧
    Deployment (plainRequest BatchUpdateStateTreeVerifier) (Some bust)
      ∈ Sample.beforeMaci ∧
    Deployment (plainRequest QuadVoteTallyVerifier) (Some qvt) ∈ Sample.beforeMaci ∧
    libraries Sample.maciRequest = [("MiMC", mimc)] ∧
    args Sample.maciRequest !! 3%nat = Some (VStr gatekeeper) ∧
    args Sample.maciRequest !! 4%nat = Some (VStr bust) ∧
    args Sample.maciRequest !! 5%nat = Some (VStr qvt).
Proof.
  assert (Hev : events_of (main (H := Sample.platform) (Sample.config 4 4 2)
                             Sample.argsWithToken) Sample.world0
                = Sample.beforeMaci ++ Deployment Sample.maciRequest (Some "0x0a") :: [])
    by (vm_compute; reflexivity).
  split; [exact Hev|split; [reflexivity|]].
  exact (main_maci_after_dependencies (H := Sample.platform) (Sample.config 4 4 2)
           Sample.argsWithToken Sample.world0 Sample.beforeMaci Sample.maciRequest
           (Some "0x0a") [] Hev eq_refl).
Defined.

Lemma main_reuses_supplied_token_witness :
  signUpToken Sample.argsWithToken = Some "0xT0KEN" ∧
  "0xT0KEN" ≠ "" ∧
  (∀ req res,
     Deployment req res
       ∈ events_of (main (H := Sample.platform) (Sample.config 4 4 2)
                      Sample.argsWithToken) Sample.world0 →
     artifact req ≠ SignUpToken) ∧
  (∀ req res,
     Deployment req res
       ∈ events_of (main (H := Sample.platform) (Sample.config 4 4 2)
                      Sample.argsWithToken) Sample.world0 →
     artifact req = SignUpTokenGatekeeper → args req = [VStr "0xT0KEN"]).
Proof.
  assert (Hne : "0xT0KEN" ≠ "") by discriminate.
  split; [reflexivity|split; [exact Hne|]].
  destruct (main_reuses_supplied_token (H := Sample.platform) (Sample.config 4 4 2)
              Sample.argsWithToken Sample.world0 "0xT0KEN" eq_refl Hne)
    as (Hnone & Hgk & _).
  split; [exact Hnone|exact Hgk].
Defined.

Lemma main_manifest_entries_witness :
  result_of (main (H := Sample.platform) (Sample.config 4 4 2) Sample.argsPlain)
    Sample.world0 = OK tt ∧
  ∃ m,
    files_after (main (H := Sample.platform) (Sample.config 4 4 2) Sample.argsPlain)
      Sample.world0 !! outputPathOf (H := Sample.platform) Sample.argsPlain = Some m ∧
    dom m = {[ "MiMC"; "BatchUpdateStateTreeVerifier";
               "QuadraticVoteTallyVerifier"; "MACI" ]}.
Proof.
  assert (Hres : result_of (main (H := Sample.platform) (Sample.config 4 4 2)
                              Sample.argsPlain) Sample.world0 = OK tt)
    by (vm_compute; reflexivity).
  split; [exact Hres|].
  destruct (main_manifest_entries (H := Sample.platform) (Sample.config 4 4 2)
              Sample.argsPlain Sample.world0 Hres)
    as (mimc & bust & qvt & maci & reqMaci & m & Hm & _ & Hdom & _).
  exists m. split; [exact Hm|exact Hdom].
Defined.

Lemma main_validates_no_depth_witness :
  accountsOf (H := Sample.platform) (Sample.config 0 0 (-1)) !! 0%nat
    = Some Sample.admin ∧
  (∀ h r, genDeployer (Platform := Sample.platform) (privateKey Sample.admin) h r
          ≠ None) ∧
  ∃ token gatekeeper mimc bust qvt,
    Deployment {| artifact := SignUpTokenGatekeeper; libraries := [];
                  args := [VStr token] |} (Some gatekeeper)
      ∈ events_of (main (H := Sample.platform) (Sample.config 0 0 (-1))
                     Sample.argsPlain) Sample.world0 ∧
    Deployment (plainRequest MiMC) (Some mimc)
      ∈ events_of (main (H := Sample.platform) (Sample.config 0 0 (-1))
                     Sample.argsPlain) Sample.world0 ∧
    Deployment (plainRequest BatchUpdateStateTreeVerifier) (Some bust)
      ∈ events_of (main (H := Sample.platform) (Sample.config 0 0 (-1))
                     Sample.argsPlain) Sample.world0 ∧
    Deployment (plainRequest QuadVoteTallyVerifier) (Some qvt)
      ∈ events_of (main (H := Sample.platform) (Sample.config 0 0 (-1))
                     Sample.argsPlain) Sample.world0.
Proof.
  assert (Hdep : ∀ h r,
            genDeployer (Platform := Sample.platform) (privateKey Sample.admin) h r
            ≠ None) by discriminate.
  split; [reflexivity|split; [exact Hdep|]].
  exact (main_validates_no_depth (H := Sample.platform) (Sample.config 0 0 (-1))
           Sample.argsPlain Sample.world0 Sample.admin eq_refl Hdep).
Defined.

Lemma main_gatekeeper_failure_witness :
  gatekeeper_failed
    (events_of (main (H := Sample.failingPlatform) (Sample.config 4 4 2)
                  Sample.argsPlain) Sample.world0) ∧
  result_of (main (H := Sample.failingPlatform) (Sample.config 4 4 2)
               Sample.argsPlain) Sample.world0
    = Throw (DeployFailed SignUpTokenGatekeeper) ∧
  files_after (main (H := Sample.failingPlatform) (Sample.config 4 4 2)
                 Sample.argsPlain) Sample.world0 = files Sample.world0.
Proof.
  assert (Hfail : gatekeeper_failed
            (events_of (main (H := Sample.failingPlatform) (Sample.config 4 4 2)
                          Sample.argsPlain) Sample.world0)).
  { exists (Sample.gatekeeperRequest "0x03"). split; [reflexivity|].
    vm_compute. find_event. }
  split; [exact Hfail|].
  destruct (main_gatekeeper_failure (H := Sample.failingPlatform)
              (Sample.config 4 4 2) Sample.argsPlain Sample.world0 Hfail)
    as (Hres & Hfiles & _).
  split; [exact Hres|exact Hfiles].
Defined.

Lemma reset_store_load_witness :
  resetStore (H := Sample.cli) Sample.worldWithArchive
    = (OK tt, Sample.worldAfterReset) ∧
  is_Some (files Sample.worldWithArchive
             !! contractAddressesStore (Cli := Sample.cli)) ∧
  ∃ w2,
    storeContractAddress (H := Sample.cli) "X" "0xabc" Sample.worldAfterReset
      = (OK tt, w2) ∧
    loadManifest (H := Sample.cli) w2 = (OK {["X" := "0xabc"]}, w2).
Proof.
  assert (Hreset : resetStore (H := Sample.cli) Sample.worldWithArchive
                   = (OK tt, Sample.worldAfterReset))
    by (vm_compute; reflexivity).
  split; [exact Hreset|].
  exact (reset_store_load (H := Sample.cli) Sample.worldWithArchive
           Sample.worldAfterReset "X" "0xabc" Hreset).
Defined.


Lemma deployVkRegistryContract_first_run_witness :
  files Sample.world0 !! contractAddressesStore (Cli := Sample.cli) = None ∧
  result_of (deployVkRegistryContract (H := Sample.cli) false) Sample.world0
    = Throw (ENOENT "contractAddresses.json") ∧
  events_of (deployVkRegistryContract (H := Sample.cli) false) Sample.world0
    = [] ∧
  files_after (deployVkRegistryContract (H := Sample.cli) false) Sample.world0
    = files Sample.world0.
Proof.
  split; [reflexivity|].
  exact (deployVkRegistryContract_first_run (H := Sample.cli) false
           Sample.world0 eq_refl).
Defined.

(** ** More about the deployment script *)

Ltac solve_prefix :=
  solve [repeat first [apply prefix_nil | apply prefix_cons]].

Section DeployMaciMore.
Context `{Platform}.
Variable config : Config.t.

(** X1. [deployMaci] asks for MiMC, the BatchUpdateStateTree verifier, the
    QuadVoteTally verifier and MACI, in this order and each at most once: the
    artifacts requested are always a prefix of that list.  When it returns,
    all four were deployed and the contracts returned carry the addresses
    the deployer reported for them. *)
Theorem deployMaci_follows_plan deployer gk ivcp sd md vd tb mb vo su vt pk q w :
  requested (events_of (deployMaci config deployer gk ivcp sd md vd tb mb vo su vt pk q) w)
    `prefix_of` maciPlan ∧
  (∀ c, result_of (deployMaci config deployer gk ivcp sd md vd tb mb vo su vt pk q) w = OK c →
     ∃ reqMaci,
       artifact reqMaci = MACI ∧
       events_of (deployMaci config deployer gk ivcp sd md vd tb mb vo su vt pk q) w =
         [ Deployment (plainRequest MiMC) (Some (contractAddress (mimcContract c)));
           Deployment (plainRequest BatchUpdateStateTreeVerifier)
             (Some (contractAddress (batchUstVerifierContract c)));
           Deployment (plainRequest QuadVoteTallyVerifier)
             (Some (contractAddress (quadVoteTallyVerifierContract c)));
           Deployment reqMaci (Some (contractAddress (maciContract c))) ]).
Proof.
  run_script.
  all: cbn [requested artifact]; unfold maciPlan.
  all: split; [solve_prefix|].
  all: intros c [= <-].
  all: eexists; split; [|reflexivity]; reflexivity.
Qed.

(** X2. [deployMaci] does not go on after a failed deployment and does not
    retry: a failed request is the last event, everything before it
    succeeded, and the exception names the artifact that failed. *)
Theorem deployMaci_failure_is_last deployer gk ivcp sd md vd tb mb vo su vt pk q
    w pre req post :
  events_of (deployMaci config deployer gk ivcp sd md vd tb mb vo su vt pk q) w
    = pre ++ Deployment req None :: post →
  post = [] ∧
  Forall succeeded pre ∧
  result_of (deployMaci config deployer gk ivcp sd md vd tb mb vo su vt pk q) w
    = Throw (DeployFailed (artifact req)).
Proof.
  run_script.
  all: intros Hev; split_events.
  all: split; [reflexivity|split; [|reflexivity]].
  all: by repeat constructor.
Qed.

(** X3. [deployMaci] never writes a file; with [quiet] true it prints
    nothing, and with [quiet] false or omitted it prints at least the MiMC
    line. *)
Theorem deployMaci_quiet deployer gk ivcp sd md vd tb mb vo su vt pk q w :
  files_after (deployMaci config deployer gk ivcp sd md vd tb mb vo su vt pk q) w
    = files w ∧
  (q = Some true →
   console_of (deployMaci config deployer gk ivcp sd md vd tb mb vo su vt pk q) w = []) ∧
  (default false q = false →
   [PStr "Deploying MiMC"]
     ∈ console_of (deployMaci config deployer gk ivcp sd md vd tb mb vo su vt pk q) w).
Proof.
  unfold console_of.
  run_script.
  all: split; [reflexivity|split].
  all: try (intros ->; discriminate).
  all: try (intros _; by rewrite drop_own_length).
  all: try (intros; discriminate).
  all: intros _; rewrite <- ?app_assoc, ?drop_app_length; cbn [app].
  all: find_event.
Qed.

(** X4. A negative state depth is met only when the capacities are
    computed, after the three library deployments: if [pow] throws on it,
    MACI is never requested, and with a deployer that accepts every request
    the exception surfaces with MiMC and both verifiers already deployed. *)
Theorem deployMaci_negative_depth deployer gk ivcp sd md vd tb mb vo su vt pk q w e :
  stateDepthOf config sd < 0 →
  pow_negative 2 (stateDepthOf config sd) = Throw e →
  (MACI ∉ requested (events_of (deployMaci config deployer gk ivcp sd md vd tb mb vo su vt pk q) w)) ∧
  ((∀ h r, deployer h r ≠ None) →
   result_of (deployMaci config deployer gk ivcp sd md vd tb mb vo su vt pk q) w = Throw e ∧
   requested (events_of (deployMaci config deployer gk ivcp sd md vd tb mb vo su vt pk q) w)
     = [MiMC; BatchUpdateStateTreeVerifier; QuadVoteTallyVerifier]).
Proof.
  intros Hneg Hpow. unfold stateDepthOf in Hneg, Hpow. revert Hpow.
  run_script.
  all: intros Hpow.
  all: try match goal with
       | E : (_ <? 0) = false |- _ => apply Z.ltb_ge in E; lia
       end.
  all: try congruence.
  all: cbn [requested artifact].
  all: split; [by (intros Hin; invert_member)|].
  all: intros Hdep.
  all: try match goal with
       | E : _ = None |- _ => by destruct (Hdep _ _ E)
       end.
  all: split; [congruence|reflexivity].
Qed.

End DeployMaciMore.

Ltac solve_succeeded :=
  solve [repeat first [apply Forall_nil_2 | apply List.Forall_cons; [exact I|]]].

Section MainMore.
Context `{Platform}.
Variable config : Config.t.

(** X5. [main] follows one plan: the token (unless supplied), the
    voice-credit proxy (unless supplied), the gatekeeper, MiMC, the two
    verifiers, MACI.  The artifacts requested are always a prefix of the
    plan, and a run that completes has requested the whole plan with every
    deployment succeeding. *)
Theorem main_follows_plan argv w :
  requested (events_of (main config argv) w) `prefix_of` planOf argv ∧
  (result_of (main config argv) w = OK tt →
   requested (events_of (main config argv) w) = planOf argv ∧
   Forall succeeded (events_of (main config argv) w)).
Proof.
  unfold planOf, maciPlan.
  run_script.
  all: cbn [requested artifact app].
  all: (split; [solve_prefix|]).
  all: intros Hres; try discriminate Hres.
  all: (split; [reflexivity|solve_succeeded]).
Qed.

(** X6. In [main] a failed deployment ends the run: it is the last event,
    everything before it succeeded, the exception names the failed artifact
    and no file has been written. *)
Theorem main_failure_is_last argv w pre req post :
  events_of (main config argv) w = pre ++ Deployment req None :: post →
  post = [] ∧
  Forall succeeded pre ∧
  result_of (main config argv) w = Throw (DeployFailed (artifact req)) ∧
  files_after (main config argv) w = files w.
Proof.
  run_script.
  all: intros Hev; split_events.
  all: (split; [reflexivity|split; [|split; reflexivity]]).
  all: solve_succeeded.
Qed.

(** X7. [main] writes at most one file: a run that throws leaves the
    files as they were, and no run changes a path other than the output
    path. *)
Theorem main_writes_one_file argv w :
  (∀ err, result_of (main config argv) w = Throw err →
        files_after (main config argv) w = files w) ∧
  (∀ p, p ≠ outputPathOf argv →
        files_after (main config argv) w !! p = files w !! p).
Proof.
  unfold outputPathOf.
  run_script.
  all: (split; [intros err He; try discriminate He; reflexivity|]).
  all: intros p Hp; try reflexivity.
  all: by rewrite lookup_insert_ne.
Qed.

(** X8. With no account to take the admin from, [main] throws a
    [TypeError] before anything is printed, deployed or written. *)
Theorem main_without_account argv w :
  accountsOf config !! 0%nat = None →
  (main config argv) w = (Throw TypeError, w).
Proof.
  unfold accountsOf, main. cbv [mbind M_bind throw].
  by intros ->.
Qed.

(** X9. The last thing a completed run prints is the object it has just
    written to the output path. *)
Theorem main_prints_what_it_writes argv w :
  result_of (main config argv) w = OK tt →
  ∃ m,
    files_after (main config argv) w !! outputPathOf argv = Some m ∧
    last (console_of (main config argv) w) = Some [PObj m].
Proof.
  unfold outputPathOf, console_of.
  run_script.
  all: intros Hres; try discriminate Hres.
  all: eexists; split; [apply lookup_insert_eq|].
  all: reflexivity.
Qed.
End MainMore.

Lemma truthy_Some (o : option string) :
  truthy o = true → o = Some (default "" o).
Proof. by destruct o. Qed.

Section Slots.
Context `{Platform}.
Variable config : Config.t.

(** The shape of every request of [main], by artifact. *)
Lemma main_request_shapes argv w req res :
  Deployment req res ∈ events_of (main config argv) w →
  (artifact req = SignUpToken →
     truthy (signUpToken argv) = false ∧ req = plainRequest SignUpToken) ∧
  (artifact req = ConstantInitialVoiceCreditProxy →
     truthy (initialVoiceCreditProxy argv) = false ∧
     req = proxyRequest (Config.initialVoiceCreditBalance (Config.maci_ config))) ∧
  (artifact req = SignUpTokenGatekeeper →
     ∃ t, req = {| artifact := SignUpTokenGatekeeper; libraries := [];
                   args := [VStr t] |} ∧
          if truthy (signUpToken argv) then signUpToken argv = Some t
          else Deployment (plainRequest SignUpToken) (Some t)
                 ∈ events_of (main config argv) w) ∧
  (artifact req = MACI →
     (∃ p, args req !! 8%nat = Some (VStr p) ∧
           if truthy (initialVoiceCreditProxy argv)
           then initialVoiceCreditProxy argv = Some p
           else Deployment
                  (proxyRequest (Config.initialVoiceCreditBalance (Config.maci_ config)))
                  (Some p) ∈ events_of (main config argv) w) ∧
     args req !! 0%nat = Some (VObj
       [ ("stateTreeDepth",
          VNum (Config.stateTreeDepth (Config.trees (Config.maci_ config))));
         ("messageTreeDepth",
          VNum (Config.messageTreeDepth (Config.trees (Config.maci_ config))));
         ("voteOptionTreeDepth",
          VNum (Config.voteOptionTreeDepth (Config.trees (Config.maci_ config)))) ]) ∧
     args req !! 1%nat = Some (VObj
       [ ("tallyBatchSize",
          VNum (Config.quadVoteTallyBatchSize (Config.maci_ config)));
         ("messageBatchSize",
          VNum (Config.messageBatchSize (Config.maci_ config))) ]) ∧
     args req !! 6%nat
       = Some (VNum (Config.signUpDurationInSeconds (Config.maci_ config))) ∧
     args req !! 7%nat
       = Some (VNum (Config.votingDurationInSeconds (Config.maci_ config))) ∧
     args req !! 9%nat = Some (VObj
       [ ("x", VStr (BigInt.toString (genPubKey (bigInt_of_string
            (Config.coordinatorPrivKey (Config.maci_ config)))).1));
         ("y", VStr (BigInt.toString (genPubKey (bigInt_of_string
            (Config.coordinatorPrivKey (Config.maci_ config)))).2)) ])).
Proof.
  unfold proxyRequest.
  run_script.
  all: intros Hin; invert_member; cbn [artifact args].
  all: (split; [intros Hart; try discriminate Hart; by split|]).
  all: (split; [intros Hart; try discriminate Hart; by split|]).
  all: (split; [intros Hart; try discriminate Hart|intros Hart; try discriminate Hart]).
  all: first
    [ eexists; split; [reflexivity|];
      first [by apply truthy_Some | find_event]
    | split;
      [ eexists; split; [reflexivity|];
        first [by apply truthy_Some | find_event]
      | repeat split; reflexivity ] ].
Qed.

(** X10. When no token address is supplied (absent or the empty string),
    every gatekeeper request is constructed on the address that a token
    deployment of this same run reported. *)
Theorem main_deploys_fresh_token argv w req res :
  truthy (signUpToken argv) = false →
  Deployment req res ∈ events_of (main config argv) w →
  artifact req = SignUpTokenGatekeeper →
  ∃ t, args req = [VStr t] ∧
       Deployment (plainRequest SignUpToken) (Some t)
         ∈ events_of (main config argv) w.
Proof.
  intros Hfalsy Hin Hart.
  destruct (main_request_shapes argv w req res Hin) as (_ & _ & Hgk & _).
  destruct (Hgk Hart) as (t & -> & Ht). rewrite Hfalsy in Ht. eauto.
Qed.

(** X11. When a non-empty voice-credit-proxy address is supplied, no
    proxy is deployed and MACI's constructor receives the supplied address
    as its proxy argument. *)
Theorem main_reuses_supplied_proxy argv w p req res :
  initialVoiceCreditProxy argv = Some p → p ≠ "" →
  Deployment req res ∈ events_of (main config argv) w →
  artifact req ≠ ConstantInitialVoiceCreditProxy ∧
  (artifact req = MACI → args req !! 8%nat = Some (VStr p)).
Proof.
  intros Hp Hne Hin.
  destruct (main_request_shapes argv w req res Hin) as (_ & Hproxy & _ & Hmaci).
  rewrite Hp, (truthy_nonempty p Hne) in Hproxy, Hmaci. split.
  - intros Hart. by destruct (Hproxy Hart).
  - intros Hart. destruct (Hmaci Hart) as ((p' & Hargs & Hp') & _).
    by simplify_eq.
Qed.

(** X12. When no proxy address is supplied, the proxy is deployed with
    the configured initial balance as its only constructor argument, and
    MACI's constructor receives the address that deployment reported. *)
Theorem main_deploys_fresh_proxy argv w req res :
  truthy (initialVoiceCreditProxy argv) = false →
  Deployment req res ∈ events_of (main config argv) w →
  (artifact req = ConstantInitialVoiceCreditProxy →
   req = proxyRequest (Config.initialVoiceCreditBalance (Config.maci_ config))) ∧
  (artifact req = MACI →
   ∃ p, args req !! 8%nat = Some (VStr p) ∧
        Deployment
          (proxyRequest (Config.initialVoiceCreditBalance (Config.maci_ config)))
          (Some p) ∈ events_of (main config argv) w).
Proof.
  intros Hfalsy Hin.
  destruct (main_request_shapes argv w req res Hin) as (_ & Hproxy & _ & Hmaci).
  rewrite Hfalsy in Hmaci. split.
  - intros Hart. by destruct (Hproxy Hart).
  - intros Hart. by destruct (Hmaci Hart) as (? & _).
Qed.

(** X13. [main] deploys MACI on the configured values: tree depths, batch
    sizes and both durations are those of the configuration, and the
    coordinator key is the one derived from the configured private key. *)
Theorem main_maci_from_config argv w req res :
  Deployment req res ∈ events_of (main config argv) w →
  artifact req = MACI →
  args req !! 0%nat = Some (VObj
    [ ("stateTreeDepth",
       VNum (Config.stateTreeDepth (Config.trees (Config.maci_ config))));
      ("messageTreeDepth",
       VNum (Config.messageTreeDepth (Config.trees (Config.maci_ config))));
      ("voteOptionTreeDepth",
       VNum (Config.voteOptionTreeDepth (Config.trees (Config.maci_ config)))) ]) ∧
  args req !! 1%nat = Some (VObj
    [ ("tallyBatchSize",
       VNum (Config.quadVoteTallyBatchSize (Config.maci_ config)));
      ("messageBatchSize",
       VNum (Config.messageBatchSize (Config.maci_ config))) ]) ∧
  args req !! 6%nat
    = Some (VNum (Config.signUpDurationInSeconds (Config.maci_ config))) ∧
  args req !! 7%nat
    = Some (VNum (Config.votingDurationInSeconds (Config.maci_ config))) ∧
  args req !! 9%nat = Some (VObj
    [ ("x", VStr (BigInt.toString (genPubKey (bigInt_of_string
         (Config.coordinatorPrivKey (Config.maci_ config)))).1));
      ("y", VStr (BigInt.toString (genPubKey (bigInt_of_string
         (Config.coordinatorPrivKey (Config.maci_ config)))).2)) ]).
Proof.
  intros Hin Hart.
  destruct (main_request_shapes argv w req res Hin) as (_ & _ & _ & Hmaci).
  by destruct (Hmaci Hart) as (_ & ?).
Qed.
End Slots.

Section Helpers.
Context `{Platform}.

(** X14. What the deployment helpers print: [deploySignupToken] has no
    quiet switch and always prints its line; the proxy, token-gatekeeper and
    free-for-all-gatekeeper helpers print their line unless [quiet] is
    true. *)
Theorem helpers_quiet (deployer : Deployer) amount token quiet w :
  console_of (deploySignupToken deployer) w
    = [[PStr "Deploying SignUpToken"]] ∧
  console_of (deployConstantInitialVoiceCreditProxy deployer amount quiet) w
    = (if default false quiet then []
       else [[PStr "Deploying InitialVoiceCreditProxy"]]) ∧
  console_of (deploySignupTokenGatekeeper deployer token quiet) w
    = (if default false quiet then []
       else [[PStr "Deploying SignUpTokenGatekeeper"]]) ∧
  console_of (deployFreeForAllSignUpGatekeeper deployer quiet) w
    = (if default false quiet then []
       else [[PStr "Deploying FreeForAllSignUpGatekeeper"]]).
Proof.
  unfold console_of, deployFreeForAllSignUpGatekeeper.
  run_script.
  all: by repeat split.
Qed.

End Helpers.

(** ** More about the VkRegistry command *)

Ltac run_command :=
  cbv [events_of result_of files_after console_of deployVkRegistryContract
       banner logGreen console_log renameSync resetContractAddresses
       deployVkRegistry waitDeployTransaction storeContractAddress
       putFile mbind M_bind mret M_ret negb];
  repeat (case_match; simplify_eq; cbn [files chain console fst snd]);
  rewrite <- ?app_assoc, ?drop_app_length, ?drop_own_length;
  cbn [app]; cbn [files chain console] in *.

Section CommandMore.
Context `{Cli}.

(** The events and files of a completed command. *)
Lemma deployVkRegistryContract_completed quiet w :
  result_of (deployVkRegistryContract quiet) w = OK tt →
  ∃ addr prev,
    files w !! contractAddressesStore = Some prev ∧
    events_of (deployVkRegistryContract quiet) w
      = [VkRegistryDeployment (Some addr); VkRegistryWait addr true] ∧
    files_after (deployVkRegistryContract quiet) w
      = <[contractAddressesStore := {["VkRegistry" := addr]}]>
          (<[oldContractAddressesStore := prev]>
             (delete contractAddressesStore (files w))).
Proof.
  run_command.
  all: intros Hres; try discriminate Hres.
  all: eexists _, _; split; [eassumption|split; [reflexivity|]].
  all: rewrite lookup_insert_eq; cbn [default from_option id].
  all: by rewrite insert_insert_eq, insert_empty.
Qed.

(** X15. A completed command has moved the previous store to the backup
    path and left the store with the VkRegistry entry alone, holding the
    address of the one deployment it made and waited for. *)
Theorem deployVkRegistryContract_rotates quiet w :
  contractAddressesStore ≠ oldContractAddressesStore →
  result_of (deployVkRegistryContract quiet) w = OK tt →
  ∃ addr prev,
    files w !! contractAddressesStore = Some prev ∧
    events_of (deployVkRegistryContract quiet) w
      = [VkRegistryDeployment (Some addr); VkRegistryWait addr true] ∧
    files_after (deployVkRegistryContract quiet) w !! contractAddressesStore
      = Some {["VkRegistry" := addr]} ∧
    files_after (deployVkRegistryContract quiet) w !! oldContractAddressesStore
      = Some prev.
Proof.
  intros Hne Hres.
  destruct (deployVkRegistryContract_completed quiet w Hres)
    as (addr & prev & Hprev & Hev & Hfiles).
  exists addr, prev. rewrite Hfiles.
  split; [done|split; [done|split]].
  - apply lookup_insert_eq.
  - rewrite lookup_insert_ne by done. apply lookup_insert_eq.
Qed.

(** X16. The store is rotated before the deployment: when the command
    fails after the rename (the deployment or the wait for its transaction),
    the previous store is already at the backup path and the store is the
    empty manifest.  The one failure before that is a rename the operating
    system refuses, which leaves every file as it was and deploys
    nothing. *)
Theorem deployVkRegistryContract_failure_after_rotation quiet w prev err :
  contractAddressesStore ≠ oldContractAddressesStore →
  files w !! contractAddressesStore = Some prev →
  result_of (deployVkRegistryContract quiet) w = Throw err →
  ((err = VkRegistryDeployFailed ∨ err = VkRegistryWaitFailed) ∧
   files_after (deployVkRegistryContract quiet) w !! contractAddressesStore
     = Some ∅ ∧
   files_after (deployVkRegistryContract quiet) w !! oldContractAddressesStore
     = Some prev)
  ∨ (∃ code,
       err = FsError code ∧
       renameError (files w) contractAddressesStore oldContractAddressesStore
         = Some code ∧
       events_of (deployVkRegistryContract quiet) w = [] ∧
       files_after (deployVkRegistryContract quiet) w = files w).
Proof.
  intros Hne Hprev. revert Hprev.
  run_command.
  all: intros Hprev Hres; simplify_eq.
  all: try (right; eexists; repeat split; eassumption).
  all: left; split; [auto|split].
  all: try apply lookup_insert_eq.
  all: rewrite lookup_insert_ne by done; apply lookup_insert_eq.
Qed.

(** X17. When the wait for the deployment transaction fails, the contract
    has been deployed but its address is not recorded: the store stays
    empty. *)
Theorem deployVkRegistryContract_wait_failure quiet w :
  result_of (deployVkRegistryContract quiet) w = Throw VkRegistryWaitFailed →
  ∃ addr,
    events_of (deployVkRegistryContract quiet) w
      = [VkRegistryDeployment (Some addr); VkRegistryWait addr false] ∧
    files_after (deployVkRegistryContract quiet) w !! contractAddressesStore
      = Some ∅.
Proof.
  run_command.
  all: intros Hres; try discriminate Hres.
  all: eexists; split; [reflexivity|apply lookup_insert_eq].
Qed.

(** X18. The command touches no file other than the store and the
    backup. *)
Theorem deployVkRegistryContract_other_files quiet w p :
  p ≠ contractAddressesStore → p ≠ oldContractAddressesStore →
  files_after (deployVkRegistryContract quiet) w !! p = files w !! p.
Proof.
  intros Hs Ho.
  run_command.
  all: try reflexivity.
  all: rewrite ?lookup_insert_ne by done.
  all: by rewrite lookup_delete_ne.
Qed.

(** X19. The banner is printed in every run, also a quiet or a failing
    one; the success line follows only in a completed run that is not
    quiet, and it carries the deployed address. *)
Theorem deployVkRegistryContract_console quiet w :
  (∀ err, result_of (deployVkRegistryContract quiet) w = Throw err →
     console_of (deployVkRegistryContract quiet) w = [[PStr bannerText]]) ∧
  (result_of (deployVkRegistryContract quiet) w = OK tt →
     ∃ addr,
       VkRegistryDeployment (Some addr)
         ∈ events_of (deployVkRegistryContract quiet) w ∧
       console_of (deployVkRegistryContract quiet) w =
         if quiet then [[PStr bannerText]]
         else [ [PStr bannerText];
                [PStr (success ("VkRegistry deployed at: " +:+ addr))] ]).
Proof.
  run_command.
  all: (split; [intros err Hres; try discriminate Hres; reflexivity|]).
  all: intros Hres; try discriminate Hres.
  all: eexists; split; [find_event|reflexivity].
Qed.

(** X20. Only one generation is kept: after two completed commands the
    backup holds the first command's VkRegistry entry and the store the
    second's, so what the store held before the first command is gone. *)
Theorem deployVkRegistryContract_twice quiet1 quiet2 w :
  contractAddressesStore ≠ oldContractAddressesStore →
  result_of (deployVkRegistryContract quiet1) w = OK tt →
  result_of (deployVkRegistryContract quiet2)
    (deployVkRegistryContract quiet1 w).2 = OK tt →
  ∃ addr1 addr2,
    VkRegistryDeployment (Some addr1)
      ∈ events_of (deployVkRegistryContract quiet1) w ∧
    VkRegistryDeployment (Some addr2)
      ∈ events_of (deployVkRegistryContract quiet2)
          (deployVkRegistryContract quiet1 w).2 ∧
    files_after (deployVkRegistryContract quiet2)
      (deployVkRegistryContract quiet1 w).2 !! contractAddressesStore
      = Some {["VkRegistry" := addr2]} ∧
    files_after (deployVkRegistryContract quiet2)
      (deployVkRegistryContract quiet1 w).2 !! oldContractAddressesStore
      = Some {["VkRegistry" := addr1]}.
Proof.
  intros Hne H1 H2.
  destruct (deployVkRegistryContract_completed quiet1 w H1)
    as (addr1 & prev1 & _ & Hev1 & Hfiles1).
  destruct (deployVkRegistryContract_completed quiet2 _ H2)
    as (addr2 & prev2 & Hprev2 & Hev2 & Hfiles2).
  unfold files_after in Hfiles1. rewrite Hfiles1, lookup_insert_eq in Hprev2.
  injection Hprev2 as <-.
  exists addr1, addr2. rewrite Hev1, Hev2, Hfiles2.
  split; [find_event|split; [find_event|split]].
  - apply lookup_insert_eq.
  - rewrite lookup_insert_ne by done. apply lookup_insert_eq.
Qed.

End CommandMore.

(** ** The further theorems at concrete runs *)

Lemma deployMaci_failure_is_last_witness :
  events_of Scenario.maciRunFailing Sample.world0
    = [Deployment (plainRequest MiMC) (Some "0x01")]
      ++ Deployment (plainRequest BatchUpdateStateTreeVerifier) None :: [] ∧
  result_of Scenario.maciRunFailing Sample.world0
    = Throw (DeployFailed BatchUpdateStateTreeVerifier).
Proof.
  assert (Hev : events_of Scenario.maciRunFailing Sample.world0
            = [Deployment (plainRequest MiMC) (Some "0x01")]
              ++ Deployment (plainRequest BatchUpdateStateTreeVerifier) None
                 :: []) by (vm_compute; reflexivity).
  split; [exact Hev|].
  exact (proj2 (proj2 (deployMaci_failure_is_last (H := Sample.platform)
           (Sample.config 4 4 2) Scenario.failingVerifier "0x04" "0x07"
           None None None None None None None None None None
           Sample.world0 _ _ _ Hev))).
Defined.

Lemma deployMaci_negative_depth_witness :
  stateDepthOf (Sample.config (-1) 4 2) None < 0 ∧
  pow_negative (Platform := Sample.platform) 2
    (stateDepthOf (Sample.config (-1) 4 2) None) = Throw RangeError ∧
  result_of Scenario.maciRunNegative Sample.world0 = Throw RangeError ∧
  requested (events_of Scenario.maciRunNegative Sample.world0)
    = [MiMC; BatchUpdateStateTreeVerifier; QuadVoteTallyVerifier].
Proof.
  assert (Hneg : stateDepthOf (Sample.config (-1) 4 2) None < 0)
    by (vm_compute; reflexivity).
  split; [exact Hneg|split; [reflexivity|]].
  refine (proj2 (deployMaci_negative_depth (H := Sample.platform)
            (Sample.config (-1) 4 2) Sample.deployer "0x04" "0x07"
            None None None None None None None None None None
            Sample.world0 RangeError Hneg eq_refl) _).
  discriminate.
Defined.

Lemma main_failure_is_last_witness :
  events_of (main (H := Sample.failingPlatform) (Sample.config 4 4 2)
               Sample.argsWithToken) Sample.world0
    = [Deployment (proxyRequest 100) (Some "0x07")]
      ++ Deployment (Sample.gatekeeperRequest "0xT0KEN") None :: [] ∧
  result_of (main (H := Sample.failingPlatform) (Sample.config 4 4 2)
               Sample.argsWithToken) Sample.world0
    = Throw (DeployFailed SignUpTokenGatekeeper).
Proof.
  assert (Hev : events_of (main (H := Sample.failingPlatform)
                             (Sample.config 4 4 2) Sample.argsWithToken)
                  Sample.world0
            = [Deployment (proxyRequest 100) (Some "0x07")]
              ++ Deployment (Sample.gatekeeperRequest "0xT0KEN") None :: [])
    by (vm_compute; reflexivity).
  split; [exact Hev|].
  destruct (main_failure_is_last (H := Sample.failingPlatform)
              (Sample.config 4 4 2) Sample.argsWithToken Sample.world0 _ _ _ Hev)
    as (_ & _ & Hres & _).
  exact Hres.
Defined.

Lemma main_without_account_witness :
  accountsOf (H := Scenario.noAccounts) (Sample.config 4 4 2) !! 0%nat = None ∧
  main (H := Scenario.noAccounts) (Sample.config 4 4 2) Sample.argsPlain
    Sample.world0 = (Throw TypeError, Sample.world0).
Proof.
  split; [reflexivity|].
  exact (main_without_account (H := Scenario.noAccounts) (Sample.config 4 4 2)
           Sample.argsPlain Sample.world0 eq_refl).
Defined.

Lemma main_prints_what_it_writes_witness :
  result_of (main (H := Sample.platform) (Sample.config 4 4 2)
               Sample.argsPlain) Sample.world0 = OK tt ∧
  ∃ m,
    files_after (main (H := Sample.platform) (Sample.config 4 4 2)
                   Sample.argsPlain) Sample.world0
      !! outputPathOf (H := Sample.platform) Sample.argsPlain = Some m ∧
    last (console_of (main (H := Sample.platform) (Sample.config 4 4 2)
                        Sample.argsPlain) Sample.world0) = Some [PObj m].
Proof.
  assert (Hres : result_of (main (H := Sample.platform) (Sample.config 4 4 2)
                              Sample.argsPlain) Sample.world0 = OK tt)
    by (vm_compute; reflexivity).
  split; [exact Hres|].
  exact (main_prints_what_it_writes (H := Sample.platform)
           (Sample.config 4 4 2) Sample.argsPlain Sample.world0 Hres).
Defined.

Lemma main_deploys_fresh_token_witness :
  truthy (signUpToken Scenario.argsEmptyToken) = false ∧
  Deployment (Sample.gatekeeperRequest "0x03") (Some "0x04")
    ∈ events_of (main (H := Sample.platform) (Sample.config 4 4 2)
                   Scenario.argsEmptyToken) Sample.world0 ∧
  ∃ t, args (Sample.gatekeeperRequest "0x03") = [VStr t] ∧
       Deployment (plainRequest SignUpToken) (Some t)
         ∈ events_of (main (H := Sample.platform) (Sample.config 4 4 2)
                        Scenario.argsEmptyToken) Sample.world0.
Proof.
  assert (Hin : Deployment (Sample.gatekeeperRequest "0x03") (Some "0x04")
            ∈ events_of (main (H := Sample.platform) (Sample.config 4 4 2)
                           Scenario.argsEmptyToken) Sample.world0)
    by (vm_compute; find_event).
  split; [reflexivity|split; [exact Hin|]].
  exact (main_deploys_fresh_token (H := Sample.platform) (Sample.config 4 4 2)
           Scenario.argsEmptyToken Sample.world0 _ _ eq_refl Hin eq_refl).
Defined.

Lemma main_reuses_supplied_proxy_witness :
  initialVoiceCreditProxy Scenario.argsWithProxy = Some "0xPR0XY" ∧
  "0xPR0XY" ≠ "" ∧
  Deployment (plainRequest MiMC) (Some "0x01")
    ∈ events_of (main (H := Sample.platform) (Sample.config 4 4 2)
                   Scenario.argsWithProxy) Sample.world0 ∧
  artifact (plainRequest MiMC) ≠ ConstantInitialVoiceCreditProxy.
Proof.
  assert (Hne : "0xPR0XY" ≠ "") by discriminate.
  assert (Hin : Deployment (plainRequest MiMC) (Some "0x01")
            ∈ events_of (main (H := Sample.platform) (Sample.config 4 4 2)
                           Scenario.argsWithProxy) Sample.world0)
    by (vm_compute; find_event).
  split; [reflexivity|split; [exact Hne|split; [exact Hin|]]].
  exact (proj1 (main_reuses_supplied_proxy (H := Sample.platform)
           (Sample.config 4 4 2) Scenario.argsWithProxy Sample.world0
           "0xPR0XY" _ _ eq_refl Hne Hin)).
Defined.

Lemma main_deploys_fresh_proxy_witness :
  truthy (initialVoiceCreditProxy Sample.argsWithToken) = false ∧
  Deployment Sample.maciRequest (Some "0x0a")
    ∈ events_of (main (H := Sample.platform) (Sample.config 4 4 2)
                   Sample.argsWithToken) Sample.world0 ∧
  ∃ p, args Sample.maciRequest !! 8%nat = Some (VStr p) ∧
       Deployment (proxyRequest 100) (Some p)
         ∈ events_of (main (H := Sample.platform) (Sample.config 4 4 2)
                        Sample.argsWithToken) Sample.world0.
Proof.
  assert (Hin : Deployment Sample.maciRequest (Some "0x0a")
            ∈ events_of (main (H := Sample.platform) (Sample.config 4 4 2)
                           Sample.argsWithToken) Sample.world0)
    by (vm_compute; find_event).
  split; [reflexivity|split; [exact Hin|]].
  exact (proj2 (main_deploys_fresh_proxy (H := Sample.platform)
           (Sample.config 4 4 2) Sample.argsWithToken Sample.world0
           _ _ eq_refl Hin) eq_refl).
Defined.

Lemma main_maci_from_config_witness :
  Deployment Sample.maciRequest (Some "0x0a")
    ∈ events_of (main (H := Sample.platform) (Sample.config 4 4 2)
                   Sample.argsWithToken) Sample.world0 ∧
  artifact Sample.maciRequest = MACI ∧
  args Sample.maciRequest !! 6%nat = Some (VNum 3600).
Proof.
  assert (Hin : Deployment Sample.maciRequest (Some "0x0a")
            ∈ events_of (main (H := Sample.platform) (Sample.config 4 4 2)
                           Sample.argsWithToken) Sample.world0)
    by (vm_compute; find_event).
  split; [exact Hin|split; [reflexivity|]].
  destruct (main_maci_from_config (H := Sample.platform) (Sample.config 4 4 2)
              Sample.argsWithToken Sample.world0 _ _ Hin eq_refl)
    as (_ & _ & Hsu & _).
  exact Hsu.
Defined.

Lemma deployVkRegistryContract_rotates_witness :
  contractAddressesStore (Cli := Sample.cli)
    ≠ oldContractAddressesStore (Cli := Sample.cli) ∧
  result_of (deployVkRegistryContract (H := Sample.cli) false)
    Sample.worldWithArchive = OK tt ∧
  ∃ addr prev,
    files Sample.worldWithArchive !! contractAddressesStore (Cli := Sample.cli)
      = Some prev ∧
    events_of (deployVkRegistryContract (H := Sample.cli) false)
      Sample.worldWithArchive
      = [VkRegistryDeployment (Some addr); VkRegistryWait addr true] ∧
    files_after (deployVkRegistryContract (H := Sample.cli) false)
      Sample.worldWithArchive !! contractAddressesStore (Cli := Sample.cli)
      = Some {["VkRegistry" := addr]} ∧
    files_after (deployVkRegistryContract (H := Sample.cli) false)
      Sample.worldWithArchive !! oldContractAddressesStore (Cli := Sample.cli)
      = Some prev.
Proof.
  assert (Hne : contractAddressesStore (Cli := Sample.cli)
                ≠ oldContractAddressesStore (Cli := Sample.cli))
    by discriminate.
  assert (Hres : result_of (deployVkRegistryContract (H := Sample.cli) false)
                   Sample.worldWithArchive = OK tt)
    by (vm_compute; reflexivity).
  split; [exact Hne|split; [exact Hres|]].
  exact (deployVkRegistryContract_rotates (H := Sample.cli) false
           Sample.worldWithArchive Hne Hres).
Defined.

Lemma deployVkRegistryContract_failure_after_rotation_witness :
  contractAddressesStore (Cli := Scenario.cliDeployFails)
    ≠ oldContractAddressesStore (Cli := Scenario.cliDeployFails) ∧
  files Sample.worldWithArchive
    !! contractAddressesStore (Cli := Scenario.cliDeployFails)
    = Some {["MACI" := "0x0a"]} ∧
  result_of (deployVkRegistryContract (H := Scenario.cliDeployFails) true)
    Sample.worldWithArchive = Throw VkRegistryDeployFailed ∧
  files_after (deployVkRegistryContract (H := Scenario.cliDeployFails) true)
    Sample.worldWithArchive
    !! contractAddressesStore (Cli := Scenario.cliDeployFails) = Some ∅.
Proof.
  assert (Hne : contractAddressesStore (Cli := Scenario.cliDeployFails)
                ≠ oldContractAddressesStore (Cli := Scenario.cliDeployFails))
    by discriminate.
  assert (Hprev : files Sample.worldWithArchive
                    !! contractAddressesStore (Cli := Scenario.cliDeployFails)
                  = Some {["MACI" := "0x0a"]}) by (vm_compute; reflexivity).
  assert (Hres : result_of
                   (deployVkRegistryContract (H := Scenario.cliDeployFails) true)
                   Sample.worldWithArchive = Throw VkRegistryDeployFailed)
    by (vm_compute; reflexivity).
  split; [exact Hne|split; [exact Hprev|split; [exact Hres|]]].
  destruct (deployVkRegistryContract_failure_after_rotation
              (H := Scenario.cliDeployFails) true Sample.worldWithArchive
              _ _ Hne Hprev Hres)
    as [(_ & Hstore & _)|(code & Hcode & _)].
  - exact Hstore.
  - discriminate Hcode.
Defined.

Lemma deployVkRegistryContract_wait_failure_witness :
  result_of (deployVkRegistryContract (H := Scenario.cliWaitFails) false)
    Sample.worldWithArchive = Throw VkRegistryWaitFailed ∧
  ∃ addr,
    events_of (deployVkRegistryContract (H := Scenario.cliWaitFails) false)
      Sample.worldWithArchive
      = [VkRegistryDeployment (Some addr); VkRegistryWait addr false] ∧
    files_after (deployVkRegistryContract (H := Scenario.cliWaitFails) false)
      Sample.worldWithArchive
      !! contractAddressesStore (Cli := Scenario.cliWaitFails) = Some ∅.
Proof.
  assert (Hres : result_of
                   (deployVkRegistryContract (H := Scenario.cliWaitFails) false)
                   Sample.worldWithArchive = Throw VkRegistryWaitFailed)
    by (vm_compute; reflexivity).
  split; [exact Hres|].
  exact (deployVkRegistryContract_wait_failure (H := Scenario.cliWaitFails)
           false Sample.worldWithArchive Hres).
Defined.

Lemma deployVkRegistryContract_other_files_witness :
  "notes.json" ≠ contractAddressesStore (Cli := Sample.cli) ∧
  "notes.json" ≠ oldContractAddressesStore (Cli := Sample.cli) ∧
  files_after (deployVkRegistryContract (H := Sample.cli) false)
    Scenario.worldWithNotes !! "notes.json"
    = files Scenario.worldWithNotes !! "notes.json".
Proof.
  assert (Hs : "notes.json" ≠ contractAddressesStore (Cli := Sample.cli))
    by discriminate.
  assert (Ho : "notes.json" ≠ oldContractAddressesStore (Cli := Sample.cli))
    by discriminate.
  split; [exact Hs|split; [exact Ho|]].
  exact (deployVkRegistryContract_other_files (H := Sample.cli) false
           Scenario.worldWithNotes "notes.json" Hs Ho).
Defined.

Lemma deployVkRegistryContract_twice_witness :
  contractAddressesStore (Cli := Scenario.cliFresh)
    ≠ oldContractAddressesStore (Cli := Scenario.cliFresh) ∧
  result_of (deployVkRegistryContract (H := Scenario.cliFresh) true)
    Scenario.worldWithNotes = OK tt ∧
  result_of (deployVkRegistryContract (H := Scenario.cliFresh) true)
    (deployVkRegistryContract (H := Scenario.cliFresh) true
       Scenario.worldWithNotes).2 = OK tt ∧
  ∃ addr1 addr2,
    files_after (deployVkRegistryContract (H := Scenario.cliFresh) true)
      (deployVkRegistryContract (H := Scenario.cliFresh) true
         Scenario.worldWithNotes).2
      !! contractAddressesStore (Cli := Scenario.cliFresh)
      = Some {["VkRegistry" := addr2]} ∧
    files_after (deployVkRegistryContract (H := Scenario.cliFresh) true)
      (deployVkRegistryContract (H := Scenario.cliFresh) true
         Scenario.worldWithNotes).2
      !! oldContractAddressesStore (Cli := Scenario.cliFresh)
      = Some {["VkRegistry" := addr1]}.
Proof.
  assert (Hne : contractAddressesStore (Cli := Scenario.cliFresh)
                ≠ oldContractAddressesStore (Cli := Scenario.cliFresh))
    by discriminate.
  assert (H1 : result_of (deployVkRegistryContract (H := Scenario.cliFresh) true)
                 Scenario.worldWithNotes = OK tt)
    by (vm_compute; reflexivity).
  assert (H2 : result_of (deployVkRegistryContract (H := Scenario.cliFresh) true)
                 (deployVkRegistryContract (H := Scenario.cliFresh) true
                    Scenario.worldWithNotes).2 = OK tt)
    by (vm_compute; reflexivity).
  split; [exact Hne|split; [exact H1|split; [exact H2|]]].
  destruct (deployVkRegistryContract_twice (H := Scenario.cliFresh) true true
              Scenario.worldWithNotes Hne H1 H2)
    as (addr1 & addr2 & _ & _ & Hstore & Hold).
  exists addr1, addr2. split; [exact Hstore|exact Hold].
Defined.

(** On a platform whose output directory is missing, the whole plan is
    deployed and the write then throws: the run fails with every contract
    on the chain and no file. *)
Lemma main_write_refused_example :
  result_of (main (H := Scenario.noOutputDirectory) (Sample.config 4 4 2)
               Sample.argsPlain) Sample.world0 = Throw (FsError "ENOENT") ∧
  requested (events_of (main (H := Scenario.noOutputDirectory)
                          (Sample.config 4 4 2) Sample.argsPlain) Sample.world0)
    = planOf Sample.argsPlain ∧
  files_after (main (H := Scenario.noOutputDirectory) (Sample.config 4 4 2)
                 Sample.argsPlain) Sample.world0 = files Sample.world0.
Proof. vm_compute. by repeat split. Qed.
